(** * Shop and admin handlers: a shallow embedding and its checked properties

    The development follows the handlers of the shop controller, in its
    Sequelize and in its Mongoose revision, and [postEditProduct] of the
    admin controller.  Handlers are functions in a small state-and-exception
    monad over a [World]: the document store, the invoice files on disk, the
    requests accepted by the payment service and a schedule saying which
    awaited call fails. *)

From Stdlib Require Import List ZArith NArith String Ascii Bool Lia DecimalString.
Import ListNotations.
Local Open Scope string_scope.
Local Open Scope Z_scope.
Set Warnings "-register-all".

(** ** JavaScript values reaching the handlers *)

(** The number a handler obtains from [+req.query.page].  Only integers that
    a double holds exactly are given a value; [JOther] stands for every other
    numeric result (a fraction, an infinity, a literal whose double is found
    by rounding), which the listing model does not follow further. *)
Inductive JSNumber : Type :=
| JNaN
| JInt (z : Z)
| JOther.

(** What the query-string parser stores under a key: a string, an array
    ([?page=1&page=2]) or a nested object ([?page[a]=1]). *)
Inductive QueryVal : Type :=
| QStr (s : string)
| QArr (l : list QueryVal)
| QObj.

Module JS.

Definition code (c : ascii) : N := N_of_ascii c.

(** StrWhiteSpaceChar, for code units below 256: TAB, LF, VT, FF, CR, SP,
    NBSP. *)
Definition is_ws (c : ascii) : bool :=
  let n := code c in
  ((9 <=? n) && (n <=? 13) || (n =? 32) || (n =? 160))%N.

Fixpoint drop_ws (s : list ascii) : list ascii :=
  match s with
  | c :: r => if is_ws c then drop_ws r else s
  | [] => []
  end.

Definition trim (s : list ascii) : list ascii :=
  rev (drop_ws (rev (drop_ws s))).

(** Value of a digit in the given radix (2, 8, 10 or 16). *)
Definition digit_val (radix : N) (c : ascii) : option N :=
  let n := code c in
  let v :=
    if ((48 <=? n) && (n <=? 57))%N then Some (n - 48)%N
    else if ((97 <=? n) && (n <=? 102))%N then Some (n - 87)%N
    else if ((65 <=? n) && (n <=? 70))%N then Some (n - 55)%N
    else None in
  match v with
  | Some d => if (d <? radix)%N then Some d else None
  | None => None
  end.

(** Longest prefix of digits, most significant first, and the rest. *)
Fixpoint span_digits (radix : N) (s : list ascii) : list N * list ascii :=
  match s with
  | c :: r =>
      match digit_val radix c with
      | Some d => let (ds, rest) := span_digits radix r in (d :: ds, rest)
      | None => ([], s)
      end
  | [] => ([], [])
  end.

Definition digits_value (radix : N) (ds : list N) : N :=
  fold_left (fun acc d => (acc * radix + d)%N) ds 0%N.

Definition two53 : Z := 2 ^ 53.

(** The double nearest to the integer [v], when that is [v] itself. *)
Definition exact_int (neg : bool) (v : N) : JSNumber :=
  if (Z.of_N v <=? two53) then JInt (if neg then - Z.of_N v else Z.of_N v)
  else JOther.

(** Value of mantissa digits [ds] scaled by [10 ^ e]. *)
Definition scaled (neg : bool) (ds : list N) (e : Z) : JSNumber :=
  let m := digits_value 10 ds in
  if (m =? 0)%N then JInt 0
  else if 0 <=? e then
    if 16 <? e then JOther
    else exact_int neg (m * 10 ^ Z.to_N e)%N
  else
    let k := Z.to_N (- e) in
    if (N.of_nat (List.length ds) <? k)%N then JOther
    else if (m mod 10 ^ k =? 0)%N then exact_int neg (m / 10 ^ k)%N
    else JOther.

(** ExponentPart, after the mantissa: nothing, or [e]/[E], an optional
    sign and at least one digit, up to the end of the string. *)
Definition exponent (s : list ascii) : option Z :=
  match s with
  | [] => Some 0
  | c :: r =>
      if ((code c =? 101) || (code c =? 69))%N then
        let '(neg, r') :=
          match r with
          | sg :: r1 =>
              if (code sg =? 45)%N then (true, r1)
              else if (code sg =? 43)%N then (false, r1)
              else (false, r)
          | [] => (false, r)
          end in
        match span_digits 10 r' with
        | (d :: ds, []) =>
            let v := Z.of_N (digits_value 10 (d :: ds)) in
            Some (if neg then - v else v)
        | _ => None
        end
      else None
  end.

(** StrUnsignedDecimalLiteral other than [Infinity]. *)
Definition unsigned_decimal (neg : bool) (s : list ascii) : JSNumber :=
  let (ip, r1) := span_digits 10 s in
  let '(fp, r2) :=
    match r1 with
    | c :: r => if (code c =? 46)%N then span_digits 10 r else ([], r1)
    | [] => ([], r1)
    end in
  match (ip ++ fp)%list with
  | [] => JNaN
  | ds =>
      match exponent r2 with
      | Some e => scaled neg ds (e - Z.of_nat (List.length fp))
      | None => JNaN
      end
  end.

Definition Infinity_lit : list ascii := list_ascii_of_string "Infinity".

Definition list_ascii_eqb (a b : list ascii) : bool :=
  String.eqb (string_of_list_ascii a) (string_of_list_ascii b).

Definition decimal (neg : bool) (s : list ascii) : JSNumber :=
  if list_ascii_eqb s Infinity_lit then JOther else unsigned_decimal neg s.

(** NonDecimalIntegerLiteral: [0b], [0o], [0x] (either case), unsigned. *)
Definition radix_of (c : ascii) : option N :=
  let n := code c in
  if ((n =? 120) || (n =? 88))%N then Some 16%N
  else if ((n =? 111) || (n =? 79))%N then Some 8%N
  else if ((n =? 98) || (n =? 66))%N then Some 2%N
  else None.

Definition non_decimal (s : list ascii) : option JSNumber :=
  match s with
  | z :: x :: r =>
      if (code z =? 48)%N then
        match radix_of x with
        | Some radix =>
            match span_digits radix r with
            | (d :: ds, []) =>
                Some (exact_int false (digits_value radix (d :: ds)))
            | _ => Some JNaN
            end
        | None => None
        end
      else None
  | _ => None
  end.

(** StringToNumber. *)
Definition StringToNumber (str : string) : JSNumber :=
  match trim (list_ascii_of_string str) with
  | [] => JInt 0
  | (c :: r) as s =>
      match non_decimal s with
      | Some v => v
      | None =>
          if (code c =? 45)%N then decimal true r
          else if (code c =? 43)%N then decimal false r
          else decimal false s
      end
  end.

Definition join (sep : string) (l : list string) : string :=
  match l with
  | [] => ""
  | x :: r => fold_left (fun acc y => (acc ++ sep ++ y)%string) r x
  end.

(** ToString of a query value: arrays join their elements with commas. *)
Fixpoint ToString (v : QueryVal) : string :=
  match v with
  | QStr s => s
  | QArr l => join "," (map ToString l)
  | QObj => "[object Object]"
  end.

(** Unary [+] applied to [req.query.page]; [None] is [undefined]. *)
Definition unary_plus (q : option QueryVal) : JSNumber :=
  match q with
  | None => JNaN
  | Some v => StringToNumber (ToString v)
  end.

(** [x || 1] on a number: [NaN] and both zeros are falsy. *)
Definition or_one (x : JSNumber) : JSNumber :=
  match x with
  | JNaN => JInt 1
  | JInt 0 => JInt 1
  | _ => x
  end.

(** [Math.ceil(a / b)] for a count [a] and a positive [b]. *)
Definition ceil_div (a b : Z) : Z := - ((- a) / b).

End JS.

(** ** Documents *)

(** An ObjectId in its 24-digit lower-case hexadecimal form, which is what
    [toString()] returns; two ids are the same id exactly when these strings
    are equal. *)
Definition ObjectId : Type := string.

(** Numbers.  The prices, quantities and page numbers of the code are
    JavaScript numbers; here they are the integers, which doubles hold
    exactly up to [2^53] in magnitude.  Fractional values, and the rounding
    of larger ones, are outside the model. *)
Record Product : Type := mkProduct {
  prod_id : ObjectId;
  title : string;
  price : Z;
  description : string;
  imageUrl : string;
  userId : ObjectId
}.

(** An entry of [user.cart.items]. *)
Record CartItem : Type := mkCartItem {
  productId : ObjectId;
  quantity : Z
}.

Record User : Type := mkUser {
  user_id : ObjectId;
  email : string;
  cart_items : list CartItem
}.

(** A cart entry after [populate('cart.items.productId')]: the reference is
    replaced by the product document, or by [null] when none has that id. *)
Record PopulatedItem : Type := mkPopulated {
  pop_product : option Product;
  pop_quantity : Z
}.

(** An entry of [order.products]. *)
Record OrderItem : Type := mkOrderItem {
  item_quantity : Z;
  productData : Product
}.

Record Order : Type := mkOrder {
  order_id : ObjectId;
  order_email : string;
  order_userId : ObjectId;
  products : list OrderItem
}.

(** The three collections, each in insertion order. *)
Record Db : Type := mkDb {
  product_docs : list Product;
  user_docs : list User;
  order_docs : list Order
}.

(** ** The invoice document *)

Inductive PdfOp : Type :=
| FontSize (n : Z)
| Text (s : string) (underline : bool)
| MoveDown.

Definition Pdf : Type := list PdfOp.

(** ** World, exceptions and the handler monad *)

(** A line item of a payment-session request. *)
Record LineItem : Type := mkLineItem {
  name : string;
  line_description : string;
  amount : Z;
  currency : string;
  line_quantity : Z
}.

Record SessionRequest : Type := mkSessionRequest {
  line_items : list LineItem;
  success_url : string;
  cancel_url : string
}.

(** [faults] schedules the awaited calls to the store and to the payment
    service: each call takes the next entry and rejects when it is [true].
    [payments] records the session requests the payment service accepted. *)
Record World : Type := mkWorld {
  db : Db;
  files : list (string * Pdf);
  payments : list SessionRequest;
  faults : list bool;
  next_oid : N
}.

Definition set_db (d : Db) (w : World) : World :=
  mkWorld d (files w) (payments w) (faults w) (next_oid w).

Definition set_files (f : list (string * Pdf)) (w : World) : World :=
  mkWorld (db w) f (payments w) (faults w) (next_oid w).

Definition set_payments (p : list SessionRequest) (w : World) : World :=
  mkWorld (db w) (files w) p (faults w) (next_oid w).

Definition set_faults (f : list bool) (w : World) : World :=
  mkWorld (db w) (files w) (payments w) f (next_oid w).

Definition set_next_oid (n : N) (w : World) : World :=
  mkWorld (db w) (files w) (payments w) (faults w) n.

Inductive Exn : Type :=
| StoreError
| CastError (value : string)
| ValidationError (path : string)
| TypeError (msg : string)
| PaymentError.

Definition Exn_name (e : Exn) : string :=
  match e with
  | StoreError => "MongoError"
  | CastError _ => "CastError"
  | ValidationError _ => "ValidationError"
  | TypeError _ => "TypeError"
  | PaymentError => "StripeError"
  end.

Definition Exn_message (e : Exn) : string :=
  match e with
  | StoreError => "storage unavailable"
  | CastError v => ("Cast to ObjectId failed for value " ++ v)%string
  | ValidationError p => ("Validation failed: " ++ p)%string
  | TypeError m => m
  | PaymentError => "payment service unavailable"
  end.

(** [String(err)]. *)
Definition Exn_toString (e : Exn) : string :=
  (Exn_name e ++ ": " ++ Exn_message e)%string.

(** What reaches [next(...)]: the message and the [httpStatusCode] property
    when the handler set one. *)
Record HttpError : Type := mkHttpError {
  message : string;
  httpStatusCode : option Z
}.

(** [let error = new Error(err); error.httpStatusCode = 500;]. *)
Definition error500 (e : Exn) : HttpError :=
  mkHttpError (Exn_toString e) (Some 500).

(** [next(err)] with the caught value itself. *)
Definition error_raw (e : Exn) : HttpError :=
  mkHttpError (Exn_message e) None.

Module Monad.

Definition M (A : Type) : Type := World -> (Exn + A) * World.

Definition ret {A} (a : A) : M A := fun w => (inr a, w).

Definition throw {A} (e : Exn) : M A := fun w => (inl e, w).

Definition bind {A B} (m : M A) (k : A -> M B) : M B :=
  fun w =>
    match m w with
    | (inr a, w') => k a w'
    | (inl e, w') => (inl e, w')
    end.

(** [try { body } catch (err) { handler }]: the writes made before the
    throw stay. *)
Definition try_catch {A} (body : M A) (handler : Exn -> M A) : M A :=
  fun w =>
    match body w with
    | (inr a, w') => (inr a, w')
    | (inl e, w') => handler e w'
    end.

Definition get_db : M Db := fun w => (inr (db w), w).

Definition put_db (d : Db) : M unit := fun w => (inr tt, set_db d w).

(** One awaited round trip: it consumes the next entry of the schedule
    and rejects with [e] when that entry is [true]; an exhausted schedule
    means no further failure. *)
Definition await (e : Exn) : M unit :=
  fun w =>
    match faults w with
    | true :: r => (inl e, set_faults r w)
    | false :: r => (inr tt, set_faults r w)
    | [] => (inr tt, w)
    end.

Definition await_store : M unit := await StoreError.

End Monad.
Import Monad.

Notation "x <- m ;; k" := (bind m (fun x => k))
  (at level 61, m at next level, right associativity).
Notation "m ;;; k" := (bind m (fun _ => k))
  (at level 61, right associativity).

(** ** The Mongoose operations the handlers call *)

Module Mongoose.

Definition hex_digit (d : N) : ascii :=
  ascii_of_N (if (d <? 10)%N then d + 48 else d + 87)%N.

Definition hex_of_byte (c : ascii) : list ascii :=
  [hex_digit (JS.code c / 16); hex_digit (JS.code c mod 16)].

Definition is_hex (c : ascii) : bool :=
  match JS.digit_val 16 c with Some _ => true | None => false end.

Definition lower_hex (c : ascii) : ascii :=
  match JS.digit_val 16 c with Some d => hex_digit d | None => c end.

(** Cast of a request string to an ObjectId: twelve raw bytes, or
    twenty-four hexadecimal digits; anything else is a cast error. *)
Definition castObjectId (s : string) : option ObjectId :=
  let cs := list_ascii_of_string s in
  if (List.length cs =? 12)%nat then
    Some (string_of_list_ascii (flat_map hex_of_byte cs))
  else if (List.length cs =? 24)%nat && forallb is_hex cs then
    Some (string_of_list_ascii (map lower_hex cs))
  else None.

Definition cast (s : string) : M ObjectId :=
  match castObjectId s with
  | Some i => ret i
  | None => throw (CastError s)
  end.

Definition find_product (i : ObjectId) (l : list Product) : option Product :=
  find (fun p => String.eqb (prod_id p) i) l.

Definition find_order (i : ObjectId) (l : list Order) : option Order :=
  find (fun o => String.eqb (order_id o) i) l.

(** [Product.findById(id)]: [null] when no document has that id. *)
Definition Product_findById (s : string) : M (option Product) :=
  i <- cast s ;;
  await_store ;;;
  d <- get_db ;;
  ret (find_product i (product_docs d)).

(** [Order.findById(id)]. *)
Definition Order_findById (s : string) : M (option Order) :=
  i <- cast s ;;
  await_store ;;;
  d <- get_db ;;
  ret (find_order i (order_docs d)).

(** [Product.countDocuments()]. *)
Definition Product_countDocuments : M Z :=
  await_store ;;;
  d <- get_db ;;
  ret (Z.of_nat (List.length (product_docs d))).

(** [Product.find().skip(s).limit(l)]; the server rejects a negative
    skip. *)
Definition Product_find_skip_limit (s l : Z) : M (list Product) :=
  await_store ;;;
  d <- get_db ;;
  if s <? 0 then throw StoreError
  else ret (firstn (Z.to_nat l) (skipn (Z.to_nat s) (product_docs d))).

(** [doc.populate('cart.items.productId').execPopulate()] on the user
    document of the request. *)
Definition populated (u : User) (d : Db) : list PopulatedItem :=
  map (fun i => mkPopulated (find_product (productId i) (product_docs d))
                            (quantity i))
      (cart_items u).

Definition populate_cart (u : User) : M (list PopulatedItem) :=
  await_store ;;;
  d <- get_db ;;
  ret (populated u d).

(** Replacement of the first document with the given id, as [save()] of
    a loaded document does. *)
Fixpoint replace_product (p : Product) (l : list Product) : list Product :=
  match l with
  | [] => []
  | q :: r =>
      if String.eqb (prod_id q) (prod_id p) then p :: r
      else q :: replace_product p r
  end.

(** [product.save()] for a document loaded from the collection. *)
Definition Product_save (p : Product) : M unit :=
  await_store ;;;
  d <- get_db ;;
  put_db (mkDb (replace_product p (product_docs d)) (user_docs d)
               (order_docs d)).

(** [order.save()] for a new document: appended to the collection. *)
Definition Order_save (o : Order) : M unit :=
  await_store ;;;
  d <- get_db ;;
  put_db (mkDb (product_docs d) (user_docs d) (order_docs d ++ [o])).

(** Twenty-four hexadecimal digits of a counter, the id given to a new
    document. *)
Fixpoint hex_of_N (digits : nat) (v : N) (acc : list ascii) : list ascii :=
  match digits with
  | O => acc
  | S k => hex_of_N k (v / 16)%N (hex_digit (v mod 16) :: acc)
  end.

Definition new_oid (n : N) : ObjectId :=
  string_of_list_ascii (hex_of_N 24 n []).

Definition new_ObjectId : M ObjectId :=
  fun w => (inr (new_oid (next_oid w)), set_next_oid (next_oid w + 1) w).

End Mongoose.
Import Mongoose.

(** ** Responses *)

Record Listing : Type := mkListing {
  prods : list Product;
  currentPage : Z;
  hasNextPage : bool;
  hasPrevPage : bool;
  nextPage : Z;
  prevPage : Z;
  lastPage : Z
}.

(** The locals handed to a view: page title, path and the view's data. *)
Inductive Locals : Type :=
| ListingLocals (pageTitle path : string) (l : Listing)
| DetailLocals (pageTitle path : string) (product : Product)
| CartLocals (pageTitle path : string) (items : list PopulatedItem)
| CheckoutLocals (pageTitle path : string) (items : list PopulatedItem)
    (totalSum : Z) (sessionId : string)
| OrdersLocals (pageTitle path : string) (orders : list Order).

Inductive Response : Type :=
| Render (view : string) (locals : Locals)
| Redirect (url : string)
| Next (e : HttpError)
| SendPdf (contentType contentDisposition : string) (body : Pdf)
| NoResponse.

(** ** Catalog handlers (Mongoose revision of the shop controller) *)

Definition ITEMS_PER_PAGE : Z := 3.

(** Body of [getProducts] once [page] is an integer. *)
Definition getProducts_page (page : Z) : M Response :=
  try_catch
    (totalItems <- Product_countDocuments ;;
     products <- Product_find_skip_limit ((page - 1) * ITEMS_PER_PAGE)
                   ITEMS_PER_PAGE ;;
     ret (Render "shop/product-list"
            (ListingLocals "All Products" "/products"
               {| prods := products;
                  currentPage := page;
                  hasNextPage := ITEMS_PER_PAGE * page <? totalItems;
                  hasPrevPage := 1 <? page;
                  nextPage := page + 1;
                  prevPage := page - 1;
                  lastPage := JS.ceil_div totalItems ITEMS_PER_PAGE |})))
    (fun err => ret (Next (error500 err))).

(** [getProducts]: [const page = +req.query.page || 1;] and the body.  The
    result is [None] when the page number is outside the integer model. *)
Definition getProducts (q : option QueryVal) : option (M Response) :=
  match JS.or_one (JS.unary_plus q) with
  | JInt page => Some (getProducts_page page)
  | _ => None
  end.

Definition getIndex_page (page : Z) : M Response :=
  try_catch
    (totalItems <- Product_countDocuments ;;
     products <- Product_find_skip_limit ((page - 1) * ITEMS_PER_PAGE)
                   ITEMS_PER_PAGE ;;
     ret (Render "shop/index"
            (ListingLocals "Shop" "/"
               {| prods := products;
                  currentPage := page;
                  hasNextPage := ITEMS_PER_PAGE * page <? totalItems;
                  hasPrevPage := 1 <? page;
                  nextPage := page + 1;
                  prevPage := page - 1;
                  lastPage := JS.ceil_div totalItems ITEMS_PER_PAGE |})))
    (fun err => ret (Next (error500 err))).

Definition getIndex (q : option QueryVal) : option (M Response) :=
  match JS.or_one (JS.unary_plus q) with
  | JInt page => Some (getIndex_page page)
  | _ => None
  end.

(** [getProduct]: the locals are built before [res.render] runs, so reading
    [product.title] of [null] throws inside the [try]. *)
Definition getProduct (prodId : string) : M Response :=
  try_catch
    (product <- Product_findById prodId ;;
     match product with
     | Some p =>
         ret (Render "shop/product-detail" (DetailLocals (title p) "/products" p))
     | None => throw (TypeError "Cannot read property 'title' of null")
     end)
    (fun err => ret (Next (error500 err))).

(** ** The user model's cart methods *)

Module UserModel.

Fixpoint replace_user (u : User) (l : list User) : list User :=
  match l with
  | [] => []
  | v :: r =>
      if String.eqb (user_id v) (user_id u) then u :: r
      else v :: replace_user u r
  end.

(** [this.save()] of the user document. *)
Definition User_save (u : User) : M unit :=
  await_store ;;;
  d <- get_db ;;
  put_db (mkDb (product_docs d) (replace_user u (user_docs d))
               (order_docs d)).

(** Modelled from the spec: the cart update of [user.addToCart], in the
    user model ([models/user]), which is not among the sources.  The spec's
    [addProduct]: if the product is already present, its quantity is raised
    by one, else it is appended with quantity one. *)
Fixpoint add_item (pid : ObjectId) (items : list CartItem) : list CartItem :=
  match items with
  | [] => [mkCartItem pid 1]
  | i :: r =>
      if String.eqb (productId i) pid
      then mkCartItem pid (quantity i + 1) :: r
      else i :: add_item pid r
  end.

(** Modelled from the spec: [user.addToCart(product)] of the user model,
    which is not among the sources.  The spec's [addProduct] updates the
    cart as [add_item] does and persists it.  The method reads the
    product's id, which throws for [null]. *)
Definition addToCart (u : User) (product : option Product) : M unit :=
  match product with
  | None => throw (TypeError "Cannot read property '_id' of null")
  | Some p =>
      User_save (mkUser (user_id u) (email u)
                        (add_item (prod_id p) (cart_items u)))
  end.

(** Modelled from the spec: [user.clearCart()] of the user model, which is
    not among the sources.  The spec's [clear]: empties the item
    collection (and persists the user). *)
Definition clearCart (u : User) : M unit :=
  User_save (mkUser (user_id u) (email u) []).

(** Modelled from the spec: the session layer, not among the sources, that
    gives each request of an authenticated session the stored document of
    its user as [req.user]. *)
Definition session_user (uid : ObjectId) (w : World) : option User :=
  find (fun u => String.eqb (user_id u) uid) (user_docs (db w)).

End UserModel.
Import UserModel.

(** ** Cart, order and checkout handlers (Mongoose revision) *)

(** [getCart]. *)
Definition getCart (req_user : User) : M Response :=
  try_catch
    (products <- populate_cart req_user ;;
     ret (Render "shop/cart" (CartLocals "Your Cart" "/cart" products)))
    (fun err => ret (Next (error500 err))).

(** [postCart]. *)
Definition postCart (req_user : User) (prodId : string) : M Response :=
  try_catch
    (product <- Product_findById prodId ;;
     addToCart req_user product ;;;
     ret (Redirect "/cart"))
    (fun err => ret (Next (error500 err))).

(** [user.cart.items.map(i => ({ quantity: i.quantity,
    productData: { ...i.productId._doc } }))]: every field of the product
    document is copied into the entry; a [null] product throws. *)
Fixpoint snapshot (items : list PopulatedItem) : Exn + list OrderItem :=
  match items with
  | [] => inr []
  | i :: r =>
      match pop_product i with
      | None => inl (TypeError "Cannot read property '_doc' of null")
      | Some p =>
          match snapshot r with
          | inr l =>
              inr (mkOrderItem (pop_quantity i)
                     (mkProduct (prod_id p) (title p) (price p)
                        (description p) (imageUrl p) (userId p)) :: l)
          | inl e => inl e
          end
      end
  end.

Definition lift {A} (r : Exn + A) : M A :=
  match r with
  | inr a => ret a
  | inl e => throw e
  end.

(** [postOrder]. *)
Definition postOrder (req_user : User) : M Response :=
  try_catch
    (items <- populate_cart req_user ;;
     products <- lift (snapshot items) ;;
     oid <- new_ObjectId ;;
     let order :=
       mkOrder oid (email req_user) (user_id req_user) products in
     Order_save order ;;;
     clearCart req_user ;;;
     ret (Redirect "/orders"))
    (fun err => ret (Next (error500 err))).

(** [getCheckoutSuccess]. *)
Definition getCheckoutSuccess (req_user : User) : M Response :=
  try_catch
    (items <- populate_cart req_user ;;
     products <- lift (snapshot items) ;;
     oid <- new_ObjectId ;;
     let order :=
       mkOrder oid (email req_user) (user_id req_user) products in
     Order_save order ;;;
     clearCart req_user ;;;
     ret (Redirect "/orders"))
    (fun err => ret (Next (error500 err))).

(** [products.forEach(p => { totalSum += p.quantity * p.productId.price })]
    from the running total [acc]. *)
Fixpoint sum_cart (acc : Z) (items : list PopulatedItem) : Exn + Z :=
  match items with
  | [] => inr acc
  | p :: r =>
      match pop_product p with
      | None => inl (TypeError "Cannot read property 'price' of null")
      | Some d => sum_cart (acc + pop_quantity p * price d) r
      end
  end.

(** [products.map(p => ({ name, description, amount, currency, quantity }))]. *)
Fixpoint to_line_items (items : list PopulatedItem) : Exn + list LineItem :=
  match items with
  | [] => inr []
  | p :: r =>
      match pop_product p with
      | None => inl (TypeError "Cannot read property 'title' of null")
      | Some d =>
          match to_line_items r with
          | inr l =>
              inr (mkLineItem (title d) (description d) (price d * 100) "usd"
                     (pop_quantity p) :: l)
          | inl e => inl e
          end
      end
  end.

(** [stripe.checkout.sessions.create(request)]: an awaited call to the
    payment service; an accepted request is recorded and numbered. *)
Definition sessions_create (r : SessionRequest) : M string :=
  await PaymentError ;;;
  fun w =>
    (inr (string_of_list_ascii
            (list_ascii_of_string "cs_"
             ++ hex_of_N 8 (N.of_nat (List.length (payments w))) [])%list),
     set_payments (payments w ++ [r]) w).

(** [getCheckout]; [origin] is [req.protocol + '://' + req.get('host')]. *)
Definition getCheckout (req_user : User) (origin : string) : M Response :=
  try_catch
    (items <- populate_cart req_user ;;
     totalSum <- lift (sum_cart 0 items) ;;
     lines <- lift (to_line_items items) ;;
     session <- sessions_create
                  (mkSessionRequest lines (origin ++ "/checkout/success")
                                    (origin ++ "/checkout/cancel")) ;;
     ret (Render "shop/checkout"
            (CheckoutLocals "Checkout" "/checkout" items totalSum session)))
    (fun err => ret (Next (error500 err))).

(** [getOrders]: the orders whose [user.userId] is the requesting user. *)
Definition getOrders (req_user : User) : M Response :=
  try_catch
    (await_store ;;;
     d <- get_db ;;
     let orders :=
       filter (fun o => String.eqb (order_userId o) (user_id req_user))
              (order_docs d) in
     ret (Render "shop/orders" (OrdersLocals "Your Orders" "/orders" orders)))
    (fun err => ret (Next (error500 err))).

(** ** Invoices *)

(** A number inside a template literal. *)
Definition show (z : Z) : string := NilEmpty.string_of_int (Z.to_int z).

Definition dquote : string := String (ascii_of_N 34) EmptyString.

(** The [forEach] over [order.products]: the running total and the lines
    written so far. *)
Definition invoice_step (st : Z * Pdf) (product : OrderItem) : Z * Pdf :=
  let (totalPrice, doc) := st in
  (totalPrice + price (productData product) * item_quantity product,
   (doc ++ [MoveDown; FontSize 14;
            Text ("Product: " ++ title (productData product)
                  ++ " - Quantity: " ++ show (item_quantity product)
                  ++ " Price: $" ++ show (price (productData product)))
                 false])%list).

Definition invoice_body (o : Order) : Z * Pdf :=
  fold_left invoice_step (products o)
    (0, [FontSize 20; Text "Invoice" true]).


Definition invoice_pdf (o : Order) : Pdf :=
  let (totalPrice, doc) := invoice_body o in
  (doc ++ [MoveDown; FontSize 12;
           Text ("Total price: $" ++ show totalPrice) false])%list.

(** [fs.createWriteStream(path)] fed the whole document. *)
Definition write_file (path : string) (doc : Pdf) : M unit :=
  fun w =>
    (inr tt,
     set_files ((path, doc)
                :: filter (fun f => negb (String.eqb (fst f) path)) (files w))
               w).

(** [getInvoice].  The invoice path is [path.join('data', 'invoices',
    invoiceName)], written here as the three segments joined by [/], which
    is what the join gives for a name without separator. *)
Definition getInvoice (req_user : User) (orderId : string) : M Response :=
  try_catch
    (order <- Order_findById orderId ;;
     match order with
     | None => ret (Next (mkHttpError "No order found" None))
     | Some order =>
         if negb (String.eqb (order_userId order) (user_id req_user))
         then ret (Next (mkHttpError "Unauthorized" None))
         else
           let invoiceName := "invoice-" ++ orderId ++ ".pdf" in
           let invoicePath := "data/invoices/" ++ invoiceName in
           let doc := invoice_pdf order in
           write_file invoicePath doc ;;;
           ret (SendPdf "application/pdf"
                  ("inline; filename=" ++ dquote ++ invoiceName ++ dquote)
                  doc)
     end)
    (fun err => ret (Next (error_raw err))).

(** ** Admin controller *)

(** The fields of the edit form; [form_price] is the submitted price as the
    schema's Number type casts it, [None] when it cannot be cast. *)
Record EditForm : Type := mkEditForm {
  form_title : string;
  form_imageUrl : string;
  form_price : option Z;
  form_description : string;
  form_productId : string
}.

(** [postEditProduct]: a failure is only logged, no response is sent. *)
Definition postEditProduct (body : EditForm) : M Response :=
  try_catch
    (product <- Product_findById (form_productId body) ;;
     match product with
     | None => throw (TypeError "Cannot set property 'title' of null")
     | Some p =>
         match form_price body with
         | None => throw (ValidationError "price")
         | Some pr =>
             Product_save (mkProduct (prod_id p) (form_title body) pr
                             (form_description body) (form_imageUrl body)
                             (userId p)) ;;;
             ret (Redirect "/admin/products")
         end
     end)
    (fun err => ret NoResponse).

(** ** The Sequelize revision of [postCart] *)

Module Sequelize.

Record ProductRow : Type := mkProductRow {
  id : N;
  row_title : string;
  row_price : Z
}.

(** A row of the [cartItems] through table, for the cart of the user. *)
Record CartItemRow : Type := mkCartItemRow {
  productId : N;
  quantity : Z
}.

(** [cart] is the rows of the requesting user's cart, [None] when the
    user has no cart ([getCart()] resolves to [null]). *)
Record State : Type := mkState {
  products : list ProductRow;
  cart : option (list CartItemRow);
  faults : list bool
}.

(** The next awaited query: [true] when it rejects. *)
Definition await (s : State) : bool * State :=
  match faults s with
  | f :: r => (f, mkState (products s) (cart s) r)
  | [] => (false, s)
  end.

(** [Product.findByPk(prodId)]. *)
Definition findByPk (prodId : N) (s : State) : option ProductRow :=
  find (fun p => (id p =? prodId)%N) (products s).

(** [cart.getProducts({ where: { id: prodId } })]: the products joined
    with their through rows. *)
Definition getProducts (prodId : N) (s : State) (rows : list CartItemRow)
  : list (ProductRow * CartItemRow) :=
  flat_map
    (fun r =>
       if (productId r =? prodId)%N then
         match findByPk (productId r) s with
         | Some p => [(p, r)]
         | None => []
         end
       else [])
    rows.

(** [cart.addProduct(product, { through: { quantity } })]: nothing for
    [null]; the through row of an associated product is updated, a new
    row is inserted otherwise. *)
Definition addProduct (product : option ProductRow) (qty : Z)
    (rows : list CartItemRow) : list CartItemRow :=
  match product with
  | None => rows
  | Some p =>
      if existsb (fun r => (productId r =? id p)%N) rows then
        map (fun r => if (productId r =? id p)%N
                      then mkCartItemRow (productId r) qty else r)
            rows
      else (rows ++ [mkCartItemRow (id p) qty])%list
  end.

Definition set_cart (rows : list CartItemRow) (s : State) : State :=
  mkState (products s) (Some rows) (faults s).

(** [postCart]: every failure ends in [console.log(err)], without a
    response. *)
Definition postCart (prodId : N) (s : State) : Response * State :=
  let (f1, s1) := await s in
  if f1 then (NoResponse, s1) else
  match cart s1 with
  | None => (NoResponse, s1)
  | Some rows =>
      let (f2, s2) := await s1 in
      if f2 then (NoResponse, s2) else
      match getProducts prodId s2 rows with
      | (product, cartItem) :: _ =>
          let newQty := quantity cartItem + 1 in
          let (f4, s4) := await s2 in
          if f4 then (NoResponse, s4)
          else (Redirect "/cart",
                set_cart (addProduct (Some product) newQty rows) s4)
      | [] =>
          let (f3, s3) := await s2 in
          if f3 then (NoResponse, s3) else
          let product := findByPk prodId s3 in
          let (f4, s4) := await s3 in
          if f4 then (NoResponse, s4)
          else (Redirect "/cart", set_cart (addProduct product 1 rows) s4)
      end
  end.

(** [n] successive requests for the same product. *)
Fixpoint postCart_times (n : nat) (prodId : N) (s : State) : State :=
  match n with
  | O => s
  | S k => snd (postCart prodId (postCart_times k prodId s))
  end.

(** Quantity recorded for a product, zero when it has no row. *)
Definition quantity_of (prodId : N) (rows : list CartItemRow) : Z :=
  match find (fun r => (productId r =? prodId)%N) rows with
  | Some r => quantity r
  | None => 0
  end.

Definition occurrences (prodId : N) (rows : list CartItemRow) : nat :=
  List.length (filter (fun r => (productId r =? prodId)%N) rows).

(** No awaited query is scheduled to fail. *)
Definition calm (s : State) : bool := forallb negb (faults s).

(** The cart a request leaves, given the cart it found. *)
Definition next_rows (prodId : N) (rows : list CartItemRow)
  : list CartItemRow :=
  match find (fun r => (productId r =? prodId)%N) rows with
  | Some r =>
      map (fun x => if (productId x =? prodId)%N
                    then mkCartItemRow (productId x) (quantity r + 1)
                    else x) rows
  | None => (rows ++ [mkCartItemRow prodId 1])%list
  end.

(** The cart after [n] requests for one product, from an empty cart. *)
Definition rows_after (n : nat) (prodId : N) : list CartItemRow :=
  match n with
  | O => []
  | S _ => [mkCartItemRow prodId (Z.of_nat n)]
  end.

End Sequelize.

(** ** Sequences of requests of one session (Mongoose revision) *)

(** [n] successive [postCart] requests of the user [uid] for [prodId]. *)
Fixpoint postCart_times (n : nat) (uid : ObjectId) (prodId : string)
    (w : World) : World :=
  match n with
  | O => w
  | S k =>
      let w1 := postCart_times k uid prodId w in
      match session_user uid w1 with
      | Some u => snd (postCart u prodId w1)
      | None => w1
      end
  end.

Definition quantity_of (pid : ObjectId) (items : list CartItem) : Z :=
  match find (fun i => String.eqb (productId i) pid) items with
  | Some i => quantity i
  | None => 0
  end.

Definition occurrences (pid : ObjectId) (items : list CartItem) : nat :=
  List.length (filter (fun i => String.eqb (productId i) pid) items).

(** The cart after [n] requests for one product, from an empty cart. *)
Definition items_after (n : nat) (pid : ObjectId) : list CartItem :=
  match n with
  | O => []
  | S _ => [mkCartItem pid (Z.of_nat n)]
  end.

(** The cart stored for a user, empty when the user is unknown. *)
Definition cart_of (uid : ObjectId) (w : World) : list CartItem :=
  match session_user uid w with
  | Some u => cart_items u
  | None => []
  end.

(** No failure among the next [n] awaited calls. *)
Definition quiet (n : nat) (w : World) : bool :=
  forallb negb (firstn n (faults w)).

(** No awaited call is scheduled to fail. *)
Definition calm (w : World) : bool := forallb negb (faults w).


(** A run of admin edits, one request after the other. *)
Definition run_edits (edits : list EditForm) (w : World) : World :=
  fold_left (fun w1 body => snd (postEditProduct body w1)) edits w.

(** ** Outcomes of checkout completion *)

(** The order document built by a completion request in world [w]. *)
Definition order_of (u : User) (w : World) (ps : list OrderItem) : Order :=
  mkOrder (new_oid (next_oid w)) (email u) (user_id u) ps.

Definition cleared (u : User) : User := mkUser (user_id u) (email u) [].

(** The three ways a completion request can end: nothing written; the order
    written but the cart not cleared (the last write was rejected); both
    written. *)
Inductive Completion (u : User) (w : World) (res : Exn + Response)
    (w' : World) : Prop :=
| NothingWritten (e : HttpError) :
    res = inr (Next e) -> db w' = db w -> Completion u w res w'
| OrderOnly (e : HttpError) (ps : list OrderItem) :
    res = inr (Next e) ->
    snapshot (populated u (db w)) = inr ps ->
    db w' = mkDb (product_docs (db w)) (user_docs (db w))
                 (order_docs (db w) ++ [order_of u w ps]) ->
    Completion u w res w'
| OrderAndCart (ps : list OrderItem) :
    res = inr (Redirect "/orders") ->
    snapshot (populated u (db w)) = inr ps ->
    db w' = mkDb (product_docs (db w))
                 (replace_user (cleared u) (user_docs (db w)))
                 (order_docs (db w) ++ [order_of u w ps]) ->
    Completion u w res w'.



(** ** A small shop used in the examples *)

Module Sample.

Definition alice_id : ObjectId := "5bf1c0a1e7179a56e2100001".
Definition bob_id : ObjectId := "5bf1c0a1e7179a56e2100002".
Definition book_id : ObjectId := "5c0f66b979af55031b34728a".
Definition pen_id : ObjectId := "5c0f66b979af55031b34728b".
Definition lamp_id : ObjectId := "5c0f66b979af55031b34728c".
Definition mug_id : ObjectId := "5c0f66b979af55031b34728d".
Definition absent_id : ObjectId := "5c0f66b979af55031b3472ff".

Definition book : Product :=
  mkProduct book_id "Book" 10 "A paperback" "/images/book.png" alice_id.
Definition pen : Product :=
  mkProduct pen_id "Pen" 5 "A blue pen" "/images/pen.png" alice_id.
Definition lamp : Product :=
  mkProduct lamp_id "Lamp" 30 "A desk lamp" "/images/lamp.png" bob_id.
Definition mug : Product :=
  mkProduct mug_id "Mug" 7 "A mug" "/images/mug.png" bob_id.

(** Alice holds one book; Bob's cart is empty. *)
Definition alice : User :=
  mkUser alice_id "alice@example.com" [mkCartItem book_id 1].
Definition bob : User := mkUser bob_id "bob@example.com" [].

Definition shop : World :=
  mkWorld (mkDb [book; pen; lamp; mug] [alice; bob] []) [] [] [] 0.

(** The admin form that doubles the price of the book. *)
Definition raise_book : EditForm :=
  mkEditForm "Book" "/images/book.png" (Some 20) "A paperback" book_id.

Definition first_order_id : ObjectId := "000000000000000000000000".

(** The order Alice's checkout completion creates in [shop]. *)
Definition alice_order : Order :=
  mkOrder first_order_id "alice@example.com" alice_id [mkOrderItem 1 book].

(** [shop] once that order is stored and Alice's cart cleared. *)
Definition shop_after_order : World :=
  mkWorld (mkDb [book; pen; lamp; mug]
                [mkUser alice_id "alice@example.com" []; bob]
                [alice_order])
          [] [] [] 1.

Definition catalog : Sequelize.State :=
  Sequelize.mkState
    [Sequelize.mkProductRow 1 "Book" 10; Sequelize.mkProductRow 2 "Pen" 5]
    (Some []) [].

End Sample.

From Stdlib Require DecimalPos.

(** ** Admin controller: adding, opening for edit and deleting products *)

(** The fields of the add form; [add_price] is the submitted price as the
    schema's Number type casts it, [None] when it cannot be cast. *)
Record AddForm : Type := mkAddForm {
  add_title : string;
  add_imageUrl : string;
  add_price : option Z;
  add_description : string
}.

(** [product.save()] for a new document: appended to the collection. *)
Definition Product_insert (p : Product) : M unit :=
  await_store ;;;
  d <- get_db ;;
  put_db (mkDb (product_docs d ++ [p]) (user_docs d) (order_docs d)).

(** [postAddProduct]: the document is built before the [try]; a failed
    save is only logged, no response is sent. *)
Definition postAddProduct (req_user : User) (body : AddForm) : M Response :=
  oid <- new_ObjectId ;;
  try_catch
    (match add_price body with
     | None => throw (ValidationError "price")
     | Some pr =>
         Product_insert (mkProduct oid (add_title body) pr
                           (add_description body) (add_imageUrl body)
                           (user_id req_user)) ;;;
         ret (Redirect "/admin/products")
     end)
    (fun err => ret NoResponse).

(** Removal of the first document with the given id. *)
Fixpoint remove_product (i : ObjectId) (l : list Product) : list Product :=
  match l with
  | [] => []
  | q :: r =>
      if String.eqb (prod_id q) i then r else q :: remove_product i r
  end.

(** [Product.findByIdAndDelete(id)]: resolves to the removed document, or
    to [null] when no document has that id. *)
Definition Product_findByIdAndDelete (s : string) : M (option Product) :=
  i <- cast s ;;
  await_store ;;;
  d <- get_db ;;
  put_db (mkDb (remove_product i (product_docs d)) (user_docs d)
               (order_docs d)) ;;;
  ret (find_product i (product_docs d)).

(** [postDeleteProduct]: the redirect comes after the [try], whatever
    happened inside. *)
Definition postDeleteProduct (prodId : string) : M Response :=
  try_catch
    (Product_findByIdAndDelete prodId ;;; ret tt)
    (fun err => ret tt) ;;;
  ret (Redirect "/admin/products").

(** Truthiness of a query parameter: absent and the empty string are
    falsy, every other string, array or object is truthy. *)
Definition truthy (q : option QueryVal) : bool :=
  match q with
  | None => false
  | Some (QStr s) => negb (String.eqb s "")
  | Some _ => true
  end.

(** The locals of the [admin/edit-product] view. *)
Record EditLocals : Type := mkEditLocals {
  edit_pageTitle : string;
  edit_path : string;
  editing : option QueryVal;
  edit_product : Product;
  isAuthenticated : bool
}.

Inductive AdminResponse : Type :=
| AdminRender (view : string) (locals : EditLocals)
| AdminRedirect (url : string)
| AdminNoResponse.

(** [getEditProduct]; [isLoggedIn] is [req.session.isLoggedIn].  For a
    product that is not found the redirect to [/] is sent first and ends
    the response, so it is what the client receives. *)
Definition getEditProduct (edit : option QueryVal) (prodId : string)
    (isLoggedIn : bool) : M AdminResponse :=
  if negb (truthy edit) then ret (AdminRedirect "/")
  else
    try_catch
      (product <- Product_findById prodId ;;
       match product with
       | None => ret (AdminRedirect "/")
       | Some p =>
           ret (AdminRender "admin/edit-product"
                  (mkEditLocals "Edit Product" "/admin/edit-product" edit p
                                isLoggedIn))
       end)
      (fun err => ret AdminNoResponse).

(** ** Signup validators of the auth routes *)

Module Signup.

Inductive Validation : Type :=
| Passes
| Rejects (msg : string).

(** [User.findOne({ email: value })]. *)
Definition User_findOne_email (value : string) : M (option User) :=
  await_store ;;;
  d <- get_db ;;
  ret (find (fun u => String.eqb (email u) value) (user_docs d)).

(** The custom validator of the [email] field: a rejected lookup is logged
    and leaves [user] undefined. *)
Definition email_custom (value : string) : M Validation :=
  user <- try_catch (User_findOne_email value) (fun err => ret None) ;;
  match user with
  | Some _ => ret (Rejects "Email already taken")
  | None => ret Passes
  end.

(** The custom validator of the [confirmPassword] field. *)
Definition confirmPassword_custom (value password : string) : Validation :=
  if negb (String.eqb value password) then Rejects "Passwords have to match"
  else Passes.

End Signup.

(** ** The read handlers of the Sequelize revision *)

Module SequelizeShop.
Import Sequelize.

Inductive View : Type :=
| ProductsView (view pageTitle path : string) (prods : list ProductRow)
| DetailView (view pageTitle path : string) (product : ProductRow)
| CartView (view pageTitle path : string)
    (items : list (ProductRow * CartItemRow)).

Inductive Reply : Type :=
| Rendered (v : View)
| Silent.

(** [Product.findAll()] and the render; a failure is only logged. *)
Definition getProducts (s : State) : Reply * State :=
  let (f, s1) := await s in
  if f then (Silent, s1)
  else (Rendered (ProductsView "shop/product-list" "All Products" "/products"
                    (products s1)), s1).

(** [getProduct]: reading [product.title] of [null] throws inside the
    [try]. *)
Definition getProduct (prodId : N) (s : State) : Reply * State :=
  let (f, s1) := await s in
  if f then (Silent, s1)
  else
    match findByPk prodId s1 with
    | Some product =>
        (Rendered (DetailView "shop/product-detail" (row_title product)
                     "/products" product), s1)
    | None => (Silent, s1)
    end.

Definition getIndex (s : State) : Reply * State :=
  let (f, s1) := await s in
  if f then (Silent, s1)
  else (Rendered (ProductsView "shop/index" "Shop" "/" (products s1)), s1).

(** [cart.getProducts()]: every through row joined with its product. *)
Definition cart_products (s : State) (rows : list CartItemRow)
  : list (ProductRow * CartItemRow) :=
  flat_map
    (fun r =>
       match findByPk (productId r) s with
       | Some p => [(p, r)]
       | None => []
       end)
    rows.

(** [getCart]. *)
Definition getCart (s : State) : Reply * State :=
  let (f1, s1) := await s in
  if f1 then (Silent, s1) else
  match cart s1 with
  | None => (Silent, s1)
  | Some rows =>
      let (f2, s2) := await s1 in
      if f2 then (Silent, s2)
      else (Rendered (CartView "shop/cart" "Your Cart" "/cart"
                        (cart_products s2 rows)), s2)
  end.

End SequelizeShop.

(** ** Reading a handler's answer *)

(** The products a listing request for page [p] shows, none when the
    request fails. *)
Definition page_prods (p : Z) (w : World) : list Product :=
  match fst (getProducts_page p w) with
  | inr (Render _ (ListingLocals _ _ l)) => prods l
  | _ => []
  end.

(** The orders an orders page shows. *)
Definition listed_orders (res : Exn + Response) : option (list Order) :=
  match res with
  | inr (Render _ (OrdersLocals _ _ orders)) => Some orders
  | _ => None
  end.

(** The file stored under a path. *)
Definition read_file (path : string) (w : World) : option Pdf :=
  match find (fun f => String.eqb (fst f) path) (files w) with
  | Some f => Some (snd f)
  | None => None
  end.

(** The text lines of a document. *)
Definition texts (doc : Pdf) : list string :=
  flat_map (fun op => match op with Text s _ => [s] | _ => [] end) doc.

(** The digits of a decimal numeral, most significant first. *)
Fixpoint udigits (d : Decimal.uint) : list N :=
  match d with
  | Decimal.Nil => []
  | Decimal.D0 d => 0%N :: udigits d
  | Decimal.D1 d => 1%N :: udigits d
  | Decimal.D2 d => 2%N :: udigits d
  | Decimal.D3 d => 3%N :: udigits d
  | Decimal.D4 d => 4%N :: udigits d
  | Decimal.D5 d => 5%N :: udigits d
  | Decimal.D6 d => 6%N :: udigits d
  | Decimal.D7 d => 7%N :: udigits d
  | Decimal.D8 d => 8%N :: udigits d
  | Decimal.D9 d => 9%N :: udigits d
  end.

Definition is_digit (c : ascii) : bool :=
  match JS.digit_val 10 c with
  | Some _ => true
  | None => false
  end.

(** The sum of price times quantity over the entries of an order. *)
Definition order_sum (ps : list OrderItem) : Z :=
  fold_right Z.add 0
    (map (fun l => price (productData l) * item_quantity l) ps).

(** The text line of the invoice for one entry. *)
Definition invoice_line (l : OrderItem) : string :=
  "Product: " ++ title (productData l) ++ " - Quantity: "
  ++ show (item_quantity l) ++ " Price: $" ++ show (price (productData l)).

(** An integer that a double holds exactly. *)
Definition held_exactly (z : Z) : bool := (- JS.two53 <=? z) && (z <=? JS.two53).

(** The invoice loop stays within exactly held integers: every price,
    quantity, product and running total, from the running total [acc]. *)
Fixpoint exact_totals (acc : Z) (ps : list OrderItem) : bool :=
  match ps with
  | [] => true
  | l :: r =>
      held_exactly (price (productData l)) && held_exactly (item_quantity l)
      && held_exactly (price (productData l) * item_quantity l)
      && held_exactly (acc + price (productData l) * item_quantity l)
      && exact_totals (acc + price (productData l) * item_quantity l) r
  end.

(** A request string made of hexadecimal digits only. *)
Definition hex_string (s : string) : bool :=
  forallb is_hex (list_ascii_of_string s).

(** The last line of the invoice. *)
Definition total_line (ps : list OrderItem) : string :=
  "Total price: $" ++ show (order_sum ps).

(** The file name of the invoice of an order, and where [getInvoice]
    stores it. *)
Definition invoice_name (orderId : string) : string :=
  "invoice-" ++ orderId ++ ".pdf".

Definition invoice_path (orderId : string) : string :=
  "data/invoices/" ++ invoice_name orderId.

(** * Properties *)

Example StringToNumber_samples :
  map JS.StringToNumber
    ["2"; " 3 "; ""; "0"; "-0"; "abc"; "1x"; "0x10"; "1e2"; "2.0"; "1.5";
     "0.0"; "."; "1."; ".5e1"; "Infinity"; "0x"; "-0x10"; "1e"; "+7"; "1 2"]
  = [JInt 2; JInt 3; JInt 0; JInt 0; JInt 0; JNaN; JNaN; JInt 16; JInt 100;
     JInt 2; JOther; JInt 0; JNaN; JInt 1; JInt 5; JOther; JNaN; JNaN; JNaN;
     JInt 7; JNaN].
Proof. vm_compute. reflexivity. Qed.

Example castObjectId_samples :
  map castObjectId ["5C0f66b979af55031b34728a"; "abc"; "abcdefghijkl"]
  = [Some "5c0f66b979af55031b34728a"; None;
     Some "6162636465666768696a6b6c"].
Proof. vm_compute. reflexivity. Qed.

(** Unfolding of the monad's operations, for proofs that run a handler. *)
Ltac run_monad :=
  unfold try_catch, lift, Product_findById, Order_findById,
    Product_countDocuments, Product_find_skip_limit, populate_cart,
    Product_save, Order_save, User_save, clearCart, addToCart,
    new_ObjectId, write_file, cast,
    await_store, await, get_db, put_db, bind, ret, throw,
    set_db, set_files, set_payments, set_faults, set_next_oid in *.

(** ** Reading the page number *)


Lemma or_one_page (p : Z) : p <> 0 -> JS.or_one (JInt p) = JInt p.
Proof. destruct p; simpl; congruence. Qed.

Lemma unary_plus_absent : JS.unary_plus None = JNaN.
Proof. reflexivity. Qed.

Example page_parameter_samples :
  map (fun q => JS.or_one (JS.unary_plus q))
    [None; Some (QStr "abc"); Some (QStr "0"); Some (QStr ""); Some (QStr "2");
     Some (QArr [QStr "1"; QStr "2"]); Some (QArr [QStr "4"]); Some QObj;
     Some (QStr "-0"); Some (QStr "0x0"); Some (QStr "-3")]
  = [JInt 1; JInt 1; JInt 1; JInt 1; JInt 2; JInt 1; JInt 4; JInt 1; JInt 1;
     JInt 1; JInt (-3)].
Proof. vm_compute. reflexivity. Qed.



(** ** Pagination *)

Lemma ceil_div_bounds (n d : Z) :
  0 < d -> d * (JS.ceil_div n d - 1) < n <= d * JS.ceil_div n d.
Proof.
  intros Hd. unfold JS.ceil_div.
  pose proof (Z.div_mod (- n) d ltac:(lia)) as E.
  pose proof (Z.mod_pos_bound (- n) d Hd) as B.
  nia.
Qed.

Lemma quiet_2_cases (w : World) :
  quiet 2 w = true ->
  faults w = [] \/ faults w = [false]
  \/ exists r, faults w = false :: false :: r.
Proof.
  unfold quiet. destruct (faults w) as [|[] [|[] r]]; simpl; try discriminate;
    eauto.
Qed.

Lemma firstn_length_le {A} (n : nat) (l : list A) :
  (List.length (firstn n l) <= n)%nat.
Proof. rewrite length_firstn. lia. Qed.

Lemma getProducts_page_ok (p : Z) (w : World) :
  1 <= p -> quiet 2 w = true ->
  let docs := product_docs (db w) in
  let totalItems := Z.of_nat (List.length docs) in
  exists w',
    getProducts_page p w
    = (inr (Render "shop/product-list"
              (ListingLocals "All Products" "/products"
                 {| prods := firstn 3 (skipn (Z.to_nat ((p - 1) * 3)) docs);
                    currentPage := p;
                    hasNextPage := 3 * p <? totalItems;
                    hasPrevPage := 1 <? p;
                    nextPage := p + 1;
                    prevPage := p - 1;
                    lastPage := JS.ceil_div totalItems 3 |})), w')
    /\ db w' = db w.
Proof.
  intros Hp Hq docs totalItems.
  assert (Hs : ((p - 1) * ITEMS_PER_PAGE <? 0) = false)
    by (apply Z.ltb_ge; unfold ITEMS_PER_PAGE; lia).
  unfold getProducts_page; run_monad.
  destruct (quiet_2_cases w Hq) as [E | [E | [r E]]]; rewrite E; simpl;
    try rewrite E; simpl; rewrite Hs; simpl; eexists; split; reflexivity.
Qed.

(** C8: for a page number [p >= 1] and a store that answers, [getProducts]
    renders the products left after skipping [(p - 1) * 3] of the catalog,
    at most 3 of them; [hasNextPage] holds exactly when [3 * p] is below the
    number of products, and [lastPage] is that number divided by 3 and
    rounded up, the least [L] with [3 * L] at least the count.  The page
    size is the constant 3. *)
Theorem listing_pagination (q : option QueryVal) (p : Z) (w : World) :
  JS.unary_plus q = JInt p -> 1 <= p -> quiet 2 w = true ->
  let docs := product_docs (db w) in
  let totalCount := Z.of_nat (List.length docs) in
  exists h l w',
    getProducts q = Some h
    /\ h w = (inr (Render "shop/product-list"
                     (ListingLocals "All Products" "/products" l)), w')
    /\ db w' = db w
    /\ prods l
       = firstn (Z.to_nat ITEMS_PER_PAGE)
           (skipn (Z.to_nat ((p - 1) * ITEMS_PER_PAGE)) docs)
    /\ (List.length (prods l) <= 3)%nat
    /\ currentPage l = p
    /\ (hasNextPage l = true <-> ITEMS_PER_PAGE * p < totalCount)
    /\ lastPage l = JS.ceil_div totalCount ITEMS_PER_PAGE
    /\ ITEMS_PER_PAGE * (lastPage l - 1) < totalCount
       <= ITEMS_PER_PAGE * lastPage l
    /\ ITEMS_PER_PAGE = 3.
Proof.
  intros Hq Hp Hw docs totalCount.
  destruct (getProducts_page_ok p w Hp Hw) as [w' [Hrun Hdb]].
  eexists; eexists; exists w'.
  split.
  { unfold getProducts. rewrite Hq, or_one_page by lia. reflexivity. }
  split; [exact Hrun|].
  split; [exact Hdb|]. simpl.
  split; [reflexivity|].
  split; [apply (firstn_length_le 3)|].
  split; [reflexivity|].
  split; [apply Z.ltb_lt|].
  split; [reflexivity|].
  split; [apply (ceil_div_bounds _ 3); lia | reflexivity].
Qed.

Lemma listing_pagination_witness :
  exists h l w',
    getProducts (Some (QStr "2")) = Some h
    /\ h Sample.shop
       = (inr (Render "shop/product-list"
                 (ListingLocals "All Products" "/products" l)), w')
    /\ db w' = db Sample.shop
    /\ prods l
       = firstn (Z.to_nat ITEMS_PER_PAGE)
           (skipn (Z.to_nat ((2 - 1) * ITEMS_PER_PAGE))
              (product_docs (db Sample.shop)))
    /\ (List.length (prods l) <= 3)%nat
    /\ currentPage l = 2
    /\ (hasNextPage l = true
        <-> ITEMS_PER_PAGE * 2
            < Z.of_nat (List.length (product_docs (db Sample.shop))))
    /\ lastPage l
       = JS.ceil_div (Z.of_nat (List.length (product_docs (db Sample.shop))))
           ITEMS_PER_PAGE
    /\ ITEMS_PER_PAGE * (lastPage l - 1)
       < Z.of_nat (List.length (product_docs (db Sample.shop)))
       <= ITEMS_PER_PAGE * lastPage l
    /\ ITEMS_PER_PAGE = 3.
Proof.
  apply (listing_pagination (Some (QStr "2")) 2 Sample.shop).
  - vm_compute. reflexivity.
  - lia.
  - reflexivity.
Defined.

Example second_page_of_sample :
  option_map (fun h => fst (h Sample.shop)) (getProducts (Some (QStr "2")))
  = Some (inr (Render "shop/product-list"
                 (ListingLocals "All Products" "/products"
                    (mkListing [Sample.mug] 2 false true 3 1 2)))).
Proof. vm_compute. reflexivity. Qed.

(** ** Product detail *)

(** Every way [getProduct] can miss its product ends in the same generic
    error: status 500 set on a wrapped exception. *)
Lemma getProduct_unresolved (prodId : string) (w : World) :
  (forall i, castObjectId prodId = Some i ->
             find_product i (product_docs (db w)) = None) ->
  exists e w',
    getProduct prodId w = (inr (Next e), w')
    /\ httpStatusCode e = Some 500 /\ db w' = db w.
Proof.
  intros H.
  unfold getProduct; run_monad.
  destruct (castObjectId prodId) as [i|] eqn:Ec; simpl.
  - specialize (H i eq_refl).
    destruct (faults w) as [|[] r]; simpl; try rewrite H; simpl;
      eexists; eexists; repeat split; reflexivity.
  - eexists; eexists; repeat split; reflexivity.
Qed.

(** C9 (the code at the failing input): the detail page of a well-formed id
    that no product has is answered with the error built in the [catch]
    block, message [TypeError: ...] and status 500; a store failure on the
    same request yields the same status. *)
Theorem getProduct_missing_is_generic_500 :
  getProduct Sample.absent_id Sample.shop
  = (inr (Next (mkHttpError
                  "TypeError: Cannot read property 'title' of null"
                  (Some 500))), Sample.shop)
  /\ fst (getProduct Sample.absent_id (set_faults [true] Sample.shop))
     = inr (Next (mkHttpError "MongoError: storage unavailable" (Some 500))).
Proof. split; vm_compute; reflexivity. Qed.

(** ** Invoices *)

Lemma await_frame (e : Exn) (w : World) :
  let w' := snd (await e w) in
  db w' = db w /\ files w' = files w /\ payments w' = payments w
  /\ next_oid w' = next_oid w.
Proof.
  unfold await. destruct (faults w) as [|[] r]; simpl; auto.
Qed.

(** C6: when the order of an invoice request belongs to another user, the
    handler answers through [next] with the error [Unauthorized] (or, if the
    store rejects the lookup, with that failure): in either case no PDF is
    sent and the invoice files are left as they were. *)
Theorem invoice_of_foreign_order_refused
    (req_user : User) (orderId : string) (i : ObjectId) (o : Order)
    (w : World) :
  castObjectId orderId = Some i ->
  find_order i (order_docs (db w)) = Some o ->
  order_userId o <> user_id req_user ->
  exists e w',
    getInvoice req_user orderId w = (inr (Next e), w')
    /\ files w' = files w
    /\ db w' = db w
    /\ (quiet 1 w = true -> e = mkHttpError "Unauthorized" None)
    /\ (quiet 1 w = false -> e = error_raw StoreError).
Proof.
  intros Hc Hf Ho.
  apply String.eqb_neq in Ho.
  unfold getInvoice, quiet; run_monad.
  rewrite Hc; simpl.
  destruct (faults w) as [|[] r]; simpl; try rewrite Hf, Ho; simpl;
    eexists; eexists; repeat split; intros; try reflexivity;
    discriminate.
Qed.

Lemma invoice_of_foreign_order_refused_witness :
  exists e w',
    getInvoice Sample.bob Sample.first_order_id Sample.shop_after_order
    = (inr (Next e), w')
    /\ files w' = files Sample.shop_after_order
    /\ db w' = db Sample.shop_after_order
    /\ (quiet 1 Sample.shop_after_order = true
        -> e = mkHttpError "Unauthorized" None)
    /\ (quiet 1 Sample.shop_after_order = false -> e = error_raw StoreError).
Proof.
  apply (invoice_of_foreign_order_refused Sample.bob Sample.first_order_id
           Sample.first_order_id Sample.alice_order Sample.shop_after_order).
  - vm_compute. reflexivity.
  - vm_compute. reflexivity.
  - vm_compute. discriminate.
Defined.

Example owner_gets_invoice :
  getInvoice (mkUser Sample.alice_id "alice@example.com" [])
    Sample.first_order_id Sample.shop_after_order
  = (inr (SendPdf "application/pdf"
            ("inline; filename=" ++ dquote
             ++ "invoice-000000000000000000000000.pdf" ++ dquote)
            [FontSize 20; Text "Invoice" true; MoveDown; FontSize 14;
             Text "Product: Book - Quantity: 1 Price: $10" false; MoveDown;
             FontSize 12; Text "Total price: $10" false]),
     set_files
       [("data/invoices/invoice-000000000000000000000000.pdf",
         [FontSize 20; Text "Invoice" true; MoveDown; FontSize 14;
          Text "Product: Book - Quantity: 1 Price: $10" false; MoveDown;
          FontSize 12; Text "Total price: $10" false])]
       Sample.shop_after_order).
Proof. vm_compute. reflexivity. Qed.

(** ** Checkout completion *)

Lemma getCheckoutSuccess_outcome (u : User) (w : World) :
  Completion u w (fst (getCheckoutSuccess u w)) (snd (getCheckoutSuccess u w)).
Proof.
  destruct w as [d fl pay f n].
  unfold getCheckoutSuccess; run_monad; simpl.
  destruct f as [|[] f1]; simpl;
    try (eapply NothingWritten; reflexivity);
    (destruct (snapshot (populated u d)) as [e|ps] eqn:Es; simpl;
     [ eapply NothingWritten; reflexivity | ]).
  - eapply OrderAndCart; simpl; eauto.
  - destruct f1 as [|[] f2]; simpl.
    + eapply OrderAndCart; simpl; eauto.
    + eapply NothingWritten; reflexivity.
    + destruct f2 as [|[] f3]; simpl.
      * eapply OrderAndCart; simpl; eauto.
      * eapply OrderOnly; simpl; eauto.
      * eapply OrderAndCart; simpl; eauto.
Qed.

Lemma getCheckoutSuccess_quiet (u : User) (w : World) (ps : list OrderItem) :
  quiet 3 w = true ->
  snapshot (populated u (db w)) = inr ps ->
  fst (getCheckoutSuccess u w) = inr (Redirect "/orders").
Proof.
  destruct w as [d fl pay f n]. unfold quiet; simpl. intros Hq Hs.
  unfold getCheckoutSuccess; run_monad; simpl.
  destruct f as [|[] [|[] [|[] f]]]; simpl in *; try discriminate;
    rewrite Hs; reflexivity.
Qed.

Lemma getCheckoutSuccess_save_rejected (u : User) (w : World) (f : list bool) :
  faults w = false :: true :: f ->
  exists e,
    fst (getCheckoutSuccess u w) = inr (Next e)
    /\ db (snd (getCheckoutSuccess u w)) = db w.
Proof.
  destruct w as [d fl pay f0 n]; simpl. intros ->.
  unfold getCheckoutSuccess; run_monad; simpl.
  destruct (snapshot (populated u d)); simpl; eexists; split;
    reflexivity.
Qed.

Lemma find_replace_user (u v : User) (l : list User) :
  find (fun x => String.eqb (user_id x) (user_id u)) l = Some v ->
  find (fun x => String.eqb (user_id x) (user_id u)) (replace_user u l)
  = Some u.
Proof.
  induction l as [|x l IH]; simpl; [discriminate|].
  destruct (String.eqb (user_id x) (user_id u)) eqn:E; intros H.
  - simpl. rewrite String.eqb_refl. reflexivity.
  - simpl. rewrite E. auto.
Qed.

Lemma cart_of_cleared (u : User) (w w' : World) :
  session_user (user_id u) w = Some u ->
  user_docs (db w') = replace_user (cleared u) (user_docs (db w)) ->
  cart_of (user_id u) w' = [].
Proof.
  unfold cart_of, session_user. intros H E. rewrite E.
  rewrite (find_replace_user (cleared u) u); [reflexivity | exact H].
Qed.

(** C3: in [getCheckoutSuccess] the cart is cleared only after the order is
    saved.  When [order.save()] is rejected the store is left as it was (the
    cart keeps its items and no order exists); whenever the request changes
    the stored cart an order has been appended; after a successful request
    (the redirect to [/orders]) the stored cart is empty and the order is in
    the ledger; and a request whose three writes and reads are answered,
    with every cart product still in the catalog, is successful. *)
Theorem cart_cleared_after_order_saved (u : User) (w : World) :
  session_user (user_id u) w = Some u ->
  let res := fst (getCheckoutSuccess u w) in
  let w' := snd (getCheckoutSuccess u w) in
  (forall f, faults w = false :: true :: f ->
     (exists e, res = inr (Next e))
     /\ cart_of (user_id u) w' = cart_of (user_id u) w
     /\ db w' = db w)
  /\ (cart_of (user_id u) w' <> cart_of (user_id u) w ->
      exists o, order_docs (db w') = (order_docs (db w) ++ [o])%list)
  /\ (res = inr (Redirect "/orders") ->
      cart_of (user_id u) w' = []
      /\ exists o, order_docs (db w') = (order_docs (db w) ++ [o])%list)
  /\ (forall ps, quiet 3 w = true ->
        snapshot (populated u (db w)) = inr ps ->
        res = inr (Redirect "/orders")).
Proof.
  intros Hu res w'.
  pose proof (getCheckoutSuccess_outcome u w) as O. fold res w' in O.
  repeat split.
  - destruct (getCheckoutSuccess_save_rejected u w f H) as [e [E _]].
    exists e. exact E.
  - destruct (getCheckoutSuccess_save_rejected u w f H) as [e [_ E]].
    fold w' in E. unfold cart_of, session_user. rewrite E. reflexivity.
  - destruct (getCheckoutSuccess_save_rejected u w f H) as [e [_ E]].
    exact E.
  - intros Hc. destruct O as [e _ E | e ps _ _ E | ps _ _ E].
    + exfalso. apply Hc. unfold cart_of, session_user. rewrite E.
      reflexivity.
    + rewrite E. eexists. reflexivity.
    + rewrite E. eexists. reflexivity.
  - destruct O as [e R E | e ps R _ E | ps _ _ E];
      try (rewrite R in H; discriminate).
    apply (cart_of_cleared u w w' Hu). rewrite E. reflexivity.
  - destruct O as [e R E | e ps R _ E | ps _ _ E];
      try (rewrite R in H; discriminate).
    rewrite E. eexists. reflexivity.
  - intros ps Hq Hs. apply (getCheckoutSuccess_quiet u w ps Hq Hs).
Qed.

Lemma cart_cleared_after_order_saved_witness :
  let res := fst (getCheckoutSuccess Sample.alice Sample.shop) in
  let w' := snd (getCheckoutSuccess Sample.alice Sample.shop) in
  (forall f, faults Sample.shop = false :: true :: f ->
     (exists e, res = inr (Next e))
     /\ cart_of (user_id Sample.alice) w'
        = cart_of (user_id Sample.alice) Sample.shop
     /\ db w' = db Sample.shop)
  /\ (cart_of (user_id Sample.alice) w'
      <> cart_of (user_id Sample.alice) Sample.shop ->
      exists o,
        order_docs (db w') = (order_docs (db Sample.shop) ++ [o])%list)
  /\ (res = inr (Redirect "/orders") ->
      cart_of (user_id Sample.alice) w' = []
      /\ exists o,
           order_docs (db w') = (order_docs (db Sample.shop) ++ [o])%list)
  /\ (forall ps, quiet 3 Sample.shop = true ->
        snapshot (populated Sample.alice (db Sample.shop)) = inr ps ->
        res = inr (Redirect "/orders")).
Proof.
  apply (cart_cleared_after_order_saved Sample.alice Sample.shop).
  reflexivity.
Defined.

Example save_rejected_keeps_cart :
  getCheckoutSuccess Sample.alice (set_faults [false; true] Sample.shop)
  = (inr (Next (mkHttpError "MongoError: storage unavailable" (Some 500))),
     set_next_oid 1 Sample.shop).
Proof. vm_compute. reflexivity. Qed.

Example completion_of_sample :
  getCheckoutSuccess Sample.alice Sample.shop
  = (inr (Redirect "/orders"), Sample.shop_after_order).
Proof. vm_compute. reflexivity. Qed.

(** ** Checkout with an empty cart *)

Lemma getCheckout_empty (u : User) (origin : string) (w : World) :
  cart_items u = [] -> quiet 2 w = true ->
  exists sid w',
    getCheckout u origin w
    = (inr (Render "shop/checkout"
              (CheckoutLocals "Checkout" "/checkout" [] 0 sid)), w')
    /\ payments w'
       = (payments w
          ++ [mkSessionRequest [] (origin ++ "/checkout/success")
                (origin ++ "/checkout/cancel")])%list
    /\ db w' = db w.
Proof.
  destruct w as [d fl pay f n]. unfold quiet; simpl. intros Hc Hq.
  unfold getCheckout, sessions_create; run_monad; unfold populated; simpl.
  rewrite Hc; simpl.
  destruct f as [|[] [|[] f]]; simpl in *; try discriminate;
    eexists; eexists; repeat split; reflexivity.
Qed.

(** C2, as the code has it: checkout of a user whose cart is empty is not
    refused.  When the store and the payment service answer, [getCheckout]
    renders the checkout page with total 0 after requesting a session with
    no line items, and [getCheckoutSuccess] redirects to [/orders] after
    appending an order without line items; the cart stays empty. *)
Theorem empty_cart_checkout_goes_through
    (u : User) (origin : string) (w : World) :
  cart_items u = [] ->
  quiet 3 w = true ->
  (exists sid w',
     getCheckout u origin w
     = (inr (Render "shop/checkout"
               (CheckoutLocals "Checkout" "/checkout" [] 0 sid)), w')
     /\ payments w'
        = (payments w
           ++ [mkSessionRequest [] (origin ++ "/checkout/success")
                 (origin ++ "/checkout/cancel")])%list
     /\ db w' = db w)
  /\ fst (getCheckoutSuccess u w) = inr (Redirect "/orders")
  /\ db (snd (getCheckoutSuccess u w))
     = mkDb (product_docs (db w))
            (replace_user (cleared u) (user_docs (db w)))
            (order_docs (db w) ++ [order_of u w []]).
Proof.
  intros Hc Hq.
  assert (Hs : snapshot (populated u (db w)) = inr []).
  { unfold populated. rewrite Hc. reflexivity. }
  split.
  { apply getCheckout_empty; [exact Hc|].
    unfold quiet in *. destruct (faults w) as [|[] [|[] [|[] f]]];
      simpl in *; congruence. }
  pose proof (getCheckoutSuccess_quiet u w [] Hq Hs) as R.
  split; [exact R|].
  destruct (getCheckoutSuccess_outcome u w) as [e R' _ | e ps R' _ _ | ps _ S E];
    try (rewrite R in R'; discriminate).
  rewrite Hs in S. injection S as <-. exact E.
Qed.

Lemma empty_cart_checkout_goes_through_witness :
  (exists sid w',
     getCheckout Sample.bob "http://shop.test" Sample.shop
     = (inr (Render "shop/checkout"
               (CheckoutLocals "Checkout" "/checkout" [] 0 sid)), w')
     /\ payments w'
        = (payments Sample.shop
           ++ [mkSessionRequest [] ("http://shop.test" ++ "/checkout/success")
                 ("http://shop.test" ++ "/checkout/cancel")])%list
     /\ db w' = db Sample.shop)
  /\ fst (getCheckoutSuccess Sample.bob Sample.shop)
     = inr (Redirect "/orders")
  /\ db (snd (getCheckoutSuccess Sample.bob Sample.shop))
     = mkDb (product_docs (db Sample.shop))
            (replace_user (cleared Sample.bob) (user_docs (db Sample.shop)))
            (order_docs (db Sample.shop)
             ++ [order_of Sample.bob Sample.shop []]).
Proof.
  apply (empty_cart_checkout_goes_through Sample.bob "http://shop.test"
           Sample.shop); reflexivity.
Defined.

(** C2 as stated fails: Bob's cart is empty, yet his checkout completion in
    the sample shop answers with the redirect to [/orders], not with an
    error, and the ledger, empty before, now holds an order without line
    items. *)
Lemma empty_cart_checkout_creates_order :
  cart_items Sample.bob = []
  /\ order_docs (db Sample.shop) = []
  /\ fst (getCheckoutSuccess Sample.bob Sample.shop)
     = inr (Redirect "/orders")
  /\ order_docs (db (snd (getCheckoutSuccess Sample.bob Sample.shop)))
     = [mkOrder Sample.first_order_id "bob@example.com" Sample.bob_id []]
  /\ order_docs (db (snd (getCheckoutSuccess Sample.bob Sample.shop)))
     <> order_docs (db Sample.shop).
Proof.
  repeat split; try (vm_compute; reflexivity).
  vm_compute. discriminate.
Qed.

(** ** Totals: checkout page, payment request and invoice *)

(** The invoice loop over a snapshot reaches the total the checkout loop
    reaches over the cart the snapshot was taken from. *)
Lemma invoice_sum_of_snapshot (items : list PopulatedItem) :
  forall (ps : list OrderItem) (acc t : Z) (doc : Pdf),
    snapshot items = inr ps ->
    sum_cart acc items = inr t ->
    fst (fold_left invoice_step ps (acc, doc)) = t.
Proof.
  induction items as [|i items IH]; simpl; intros ps acc t doc Hs Hc.
  - injection Hs as <-. injection Hc as <-. reflexivity.
  - destruct (pop_product i) as [p|]; [|discriminate].
    destruct (snapshot items) as [e|l]; [discriminate|].
    injection Hs as <-. simpl.
    rewrite (Z.mul_comm (price p) (pop_quantity i)).
    eapply IH; [reflexivity | exact Hc].
Qed.





(** ** Orders and later edits of the catalog *)

Lemma postEditProduct_frame (body : EditForm) (w : World) :
  order_docs (db (snd (postEditProduct body w))) = order_docs (db w)
  /\ user_docs (db (snd (postEditProduct body w))) = user_docs (db w).
Proof.
  destruct w as [d fl pay f n].
  unfold postEditProduct; run_monad; simpl.
  destruct (castObjectId (form_productId body)) as [i|]; simpl; auto.
  destruct f as [|[] f1]; simpl; auto;
    (destruct (find_product i (product_docs d)) as [p|]; simpl; auto;
     destruct (form_price body) as [pr|]; simpl; auto).
  - destruct f1 as [|[] f2]; simpl; auto.
Qed.

Lemma run_edits_frame (edits : list EditForm) :
  forall w, order_docs (db (run_edits edits w)) = order_docs (db w).
Proof.
  unfold run_edits.
  induction edits as [|body edits IH]; intros w; simpl; [reflexivity|].
  rewrite IH. apply postEditProduct_frame.
Qed.

(** Each entry of a snapshot holds the product document the cart entry was
    populated with, field for field, and the entry's quantity. *)
Lemma snapshot_copies (items : list PopulatedItem) :
  forall ps, snapshot items = inr ps ->
    Forall2 (fun i l => pop_product i = Some (productData l)
                        /\ item_quantity l = pop_quantity i) items ps.
Proof.
  induction items as [|i items IH]; simpl; intros ps H.
  - injection H as <-. constructor.
  - destruct (pop_product i) as [p|] eqn:Ep; [|discriminate].
    destruct (snapshot items) as [e|l]; [discriminate|].
    injection H as <-. constructor; [|apply IH; reflexivity].
    simpl. destruct p; auto.
Qed.

Lemma Forall2_populated (u : User) (d : Db) (ps : list OrderItem) :
  Forall2 (fun i l => pop_product i = Some (productData l)
                      /\ item_quantity l = pop_quantity i)
          (populated u d) ps ->
  Forall2 (fun c l =>
             find_product (productId c) (product_docs d)
             = Some (productData l)
             /\ item_quantity l = quantity c)
          (cart_items u) ps.
Proof.
  unfold populated. generalize (cart_items u) as cs.
  intros cs; revert ps.
  induction cs as [|c cs IH]; simpl; intros ps H; inversion H; subst;
    constructor; auto.
Qed.

(** *** The two completion paths *)





Example postOrder_of_sample :
  postOrder Sample.alice Sample.shop
  = (inr (Redirect "/orders"), Sample.shop_after_order).
Proof. vm_compute. reflexivity. Qed.

(** C7: the order created by a successful checkout holds, for each cart
    entry, the whole product document found in the catalog at that moment
    (title, description, price, image reference and the rest) with the
    entry's quantity; and no sequence of [postEditProduct] requests
    afterwards changes the order collection: every stored order keeps its
    line items. *)
Theorem order_snapshot_frozen
    (u : User) (w : World) (edits : list EditForm) :
  fst (getCheckoutSuccess u w) = inr (Redirect "/orders") ->
  let w1 := snd (getCheckoutSuccess u w) in
  exists o,
    order_docs (db w1) = (order_docs (db w) ++ [o])%list
    /\ Forall2 (fun c l =>
                  find_product (productId c) (product_docs (db w))
                  = Some (productData l)
                  /\ item_quantity l = quantity c)
               (cart_items u) (products o)
    /\ order_docs (db (run_edits edits w1)) = order_docs (db w1).
Proof.
  intros R w1.
  destruct (getCheckoutSuccess_outcome u w) as [e R' _ | e ps R' _ _ | ps _ S E];
    try (rewrite R in R'; discriminate).
  exists (order_of u w ps). fold w1 in E.
  split; [rewrite E; reflexivity|].
  split; [apply Forall2_populated, snapshot_copies, S|].
  apply run_edits_frame.
Qed.

Lemma order_snapshot_frozen_witness :
  let w1 := snd (getCheckoutSuccess Sample.alice Sample.shop) in
  exists o,
    order_docs (db w1) = (order_docs (db Sample.shop) ++ [o])%list
    /\ Forall2 (fun c l =>
                  find_product (productId c) (product_docs (db Sample.shop))
                  = Some (productData l)
                  /\ item_quantity l = quantity c)
               (cart_items Sample.alice) (products o)
    /\ order_docs (db (run_edits [Sample.raise_book] w1))
       = order_docs (db w1).
Proof.
  apply (order_snapshot_frozen Sample.alice Sample.shop [Sample.raise_book]).
  vm_compute. reflexivity.
Defined.

Example edit_changes_catalog_not_order :
  let w2 := run_edits [Sample.raise_book] Sample.shop_after_order in
  map price (product_docs (db w2)) = [20; 5; 30; 7]
  /\ order_docs (db w2) = [Sample.alice_order]
  /\ map (fun l => price (productData l)) (products Sample.alice_order)
     = [10].
Proof. vm_compute. auto. Qed.

(** ** Adding to the cart *)

Module SequelizeFacts.
Import Sequelize.

Lemma findByPk_id (prodId : N) (s : State) (p : ProductRow) :
  findByPk prodId s = Some p -> id p = prodId.
Proof.
  unfold findByPk. intros H. apply find_some in H.
  apply N.eqb_eq, H.
Qed.

(** With the product in the catalog, the joined query returns it once per
    through row that refers to it. *)
Lemma getProducts_rows (prodId : N) (s : State) (p : ProductRow)
    (rows : list CartItemRow) :
  findByPk prodId s = Some p ->
  getProducts prodId s rows
  = map (fun r => (p, r)) (filter (fun r => (productId r =? prodId)%N) rows).
Proof.
  intros Hp. unfold getProducts.
  induction rows as [|r rows IH]; simpl; [reflexivity|].
  destruct (productId r =? prodId)%N eqn:E; simpl.
  - apply N.eqb_eq in E. rewrite E, Hp. simpl. f_equal. exact IH.
  - exact IH.
Qed.

Lemma find_filter_head (prodId : N) (rows : list CartItemRow) :
  find (fun r => (productId r =? prodId)%N) rows
  = hd_error (filter (fun r => (productId r =? prodId)%N) rows).
Proof.
  induction rows as [|r rows IH]; simpl; [reflexivity|].
  destruct (productId r =? prodId)%N; simpl; auto.
Qed.

Lemma existsb_filter_nil (prodId : N) (rows : list CartItemRow) :
  filter (fun r => (productId r =? prodId)%N) rows = [] ->
  existsb (fun r => (productId r =? prodId)%N) rows = false.
Proof.
  induction rows as [|r rows IH]; simpl; [reflexivity|].
  destruct (productId r =? prodId)%N; simpl; [discriminate | exact IH].
Qed.

Lemma existsb_filter_cons (prodId : N) (rows : list CartItemRow) r l :
  filter (fun r => (productId r =? prodId)%N) rows = r :: l ->
  existsb (fun r => (productId r =? prodId)%N) rows = true.
Proof.
  induction rows as [|x rows IH]; simpl; [discriminate|].
  destruct (productId x =? prodId)%N; simpl; [reflexivity | exact IH].
Qed.

Lemma row_step (prodId : N) (s : State) (p : ProductRow)
    (rows : list CartItemRow) :
  cart s = Some rows ->
  findByPk prodId s = Some p ->
  calm s = true ->
  exists s',
    postCart prodId s = (Redirect "/cart", s')
    /\ products s' = products s
    /\ calm s' = true
    /\ cart s' = Some (next_rows prodId rows).
Proof.
  intros Hc Hp Hq.
  pose proof (findByPk_id _ _ _ Hp) as Hid.
  pose proof (find_filter_head prodId rows) as Hf.
  unfold next_rows. rewrite Hf.
  destruct s as [ps c f]. unfold calm in *. simpl in *. subst c.
  unfold findByPk in Hp; simpl in Hp.
  unfold postCart, await; simpl.
  destruct (filter (fun r => (productId r =? prodId)%N) rows)
    as [|r l] eqn:Ef.
  - pose proof (existsb_filter_nil _ _ Ef) as Ex.
    destruct f as [|[] [|[] [|[] [|[] f]]]]; simpl in *;
      try discriminate;
      (erewrite getProducts_rows by exact Hp); rewrite Ef; simpl;
      unfold findByPk; simpl; rewrite Hp; simpl; rewrite Hid, Ex;
      eexists; repeat split; auto.
  - pose proof (existsb_filter_cons _ _ _ _ Ef) as Ex.
    destruct f as [|[] [|[] [|[] f]]]; simpl in *;
      try discriminate;
      (erewrite getProducts_rows by exact Hp); rewrite Ef; simpl;
      rewrite Hid, Ex; eexists; repeat split; auto.
Qed.

Lemma next_rows_after (n : nat) (prodId : N) :
  next_rows prodId (rows_after n prodId) = rows_after (S n) prodId.
Proof.
  destruct n as [|n]; unfold next_rows, rows_after.
  - reflexivity.
  - cbn [find productId quantity map]. rewrite N.eqb_refl.
    cbn [productId quantity]. do 2 f_equal. lia.
Qed.

Lemma postCart_times_rows (n : nat) (prodId : N) (s : State)
    (p : ProductRow) :
  cart s = Some [] ->
  findByPk prodId s = Some p ->
  calm s = true ->
  let s' := postCart_times n prodId s in
  products s' = products s /\ calm s' = true
  /\ cart s' = Some (rows_after n prodId).
Proof.
  intros Hc Hp Hq.
  induction n as [|n IH]; cbn [postCart_times]; [auto|].
  destruct IH as (Hps & Hq' & Hc').
  assert (Hp' : findByPk prodId (postCart_times n prodId s) = Some p)
    by (unfold findByPk in *; rewrite Hps; exact Hp).
  destruct (row_step prodId _ p _ Hc' Hp' Hq')
    as (s' & E & Eps & Eq & Ec).
  cbv zeta. rewrite E. cbn [snd].
  rewrite Eps, Hps, Ec, next_rows_after. auto.
Qed.

Lemma rows_after_count (n : nat) (prodId : N) :
  quantity_of prodId (rows_after n prodId) = Z.of_nat n
  /\ (occurrences prodId (rows_after n prodId) <= 1)%nat.
Proof.
  destruct n as [|n]; unfold quantity_of, occurrences, rows_after.
  - simpl. auto.
  - cbn [find filter productId quantity]. rewrite N.eqb_refl.
    cbn [quantity List.length]. auto.
Qed.

End SequelizeFacts.

Lemma find_product_id (pid : ObjectId) (l : list Product) (p : Product) :
  find_product pid l = Some p -> prod_id p = pid.
Proof.
  unfold find_product. intros H. apply find_some in H.
  apply String.eqb_eq, H.
Qed.

Lemma session_user_id (uid : ObjectId) (w : World) (u : User) :
  session_user uid w = Some u -> user_id u = uid.
Proof.
  unfold session_user. intros H. apply find_some in H.
  apply String.eqb_eq, H.
Qed.

Lemma postCart_step
    (u : User) (prodId : string) (pid : ObjectId) (p : Product) (w : World) :
  castObjectId prodId = Some pid ->
  find_product pid (product_docs (db w)) = Some p ->
  calm w = true ->
  session_user (user_id u) w = Some u ->
  exists w',
    postCart u prodId w = (inr (Redirect "/cart"), w')
    /\ product_docs (db w') = product_docs (db w)
    /\ calm w' = true
    /\ session_user (user_id u) w'
       = Some (mkUser (user_id u) (email u) (add_item pid (cart_items u))).
Proof.
  intros Hc Hp Hq Hu.
  pose proof (find_product_id _ _ _ Hp) as Hid.
  pose proof (find_replace_user
                (mkUser (user_id u) (email u) (add_item pid (cart_items u)))
                u (user_docs (db w)) Hu) as Hr.
  destruct w as [d fl pay f n]. unfold calm, session_user in *.
  simpl in *.
  unfold postCart; run_monad; simpl. rewrite Hc; simpl.
  destruct f as [|[] [|[] f]]; simpl in *; try discriminate;
    rewrite Hp; simpl; rewrite Hid;
    eexists; repeat split; simpl; auto.
Qed.

Lemma add_item_after (n : nat) (pid : ObjectId) :
  add_item pid (items_after n pid) = items_after (S n) pid.
Proof.
  destruct n as [|n]; unfold items_after.
  - reflexivity.
  - cbn [add_item productId quantity]. rewrite String.eqb_refl.
    do 2 f_equal. lia.
Qed.

Lemma postCart_times_items
    (n : nat) (uid : ObjectId) (u : User) (prodId : string) (pid : ObjectId)
    (p : Product) (w : World) :
  session_user uid w = Some u ->
  cart_items u = [] ->
  castObjectId prodId = Some pid ->
  find_product pid (product_docs (db w)) = Some p ->
  calm w = true ->
  let w' := postCart_times n uid prodId w in
  product_docs (db w') = product_docs (db w) /\ calm w' = true
  /\ session_user uid w' = Some (mkUser uid (email u) (items_after n pid)).
Proof.
  intros Hu Hi Hc Hp Hq.
  pose proof (session_user_id _ _ _ Hu) as Hid.
  induction n as [|n IH]; cbn [postCart_times].
  - repeat split; auto. rewrite Hu. destruct u; simpl in *. subst.
    reflexivity.
  - destruct IH as (Hps & Hq' & Hu').
    cbv zeta. rewrite Hu'.
    assert (Hp' : find_product pid
                    (product_docs (db (postCart_times n uid prodId w)))
                  = Some p) by (rewrite Hps; exact Hp).
    destruct (postCart_step (mkUser uid (email u) (items_after n pid))
                prodId pid p _ Hc Hp' Hq' Hu')
      as (w' & E & Eps & Eq & Eu).
    rewrite E. cbn [snd]. simpl in Eu.
    rewrite Eps, Hps, Eu, add_item_after. auto.
Qed.

Lemma items_after_count (n : nat) (pid : ObjectId) :
  quantity_of pid (items_after n pid) = Z.of_nat n
  /\ (occurrences pid (items_after n pid) <= 1)%nat.
Proof.
  destruct n as [|n]; unfold quantity_of, occurrences, items_after.
  - simpl. auto.
  - cbn [find filter productId quantity]. rewrite String.eqb_refl.
    cbn [quantity List.length]. auto.
Qed.

(** One more unit of a product already in the cart raises the quantity of
    its entry by one and adds no entry; of a product not in the cart, it
    appends an entry with quantity one. *)
Lemma add_item_present (pid : ObjectId) (items : list CartItem) (i : CartItem) :
  find (fun c => String.eqb (productId c) pid) items = Some i ->
  quantity_of pid (add_item pid items) = quantity i + 1
  /\ List.length (add_item pid items) = List.length items
  /\ occurrences pid (add_item pid items) = occurrences pid items.
Proof.
  unfold quantity_of, occurrences.
  induction items as [|c items IH]; simpl; [discriminate|].
  destruct (String.eqb (productId c) pid) eqn:E; intros H.
  - injection H as <-. simpl. rewrite String.eqb_refl. simpl. auto.
  - simpl. rewrite E. destruct (IH H) as (Q & L & O).
    rewrite Q, L, O. auto.
Qed.

Lemma add_item_absent (pid : ObjectId) (items : list CartItem) :
  find (fun c => String.eqb (productId c) pid) items = None ->
  add_item pid items = (items ++ [mkCartItem pid 1])%list.
Proof.
  induction items as [|c items IH]; simpl; [reflexivity|].
  destruct (String.eqb (productId c) pid) eqn:E; intros H;
    [discriminate|]. rewrite (IH H). reflexivity.
Qed.

Lemma next_rows_present (prodId : N) (rows : list Sequelize.CartItemRow)
    (r : Sequelize.CartItemRow) :
  find (fun x => (Sequelize.productId x =? prodId)%N) rows = Some r ->
  Sequelize.quantity_of prodId (Sequelize.next_rows prodId rows)
  = Sequelize.quantity r + 1
  /\ List.length (Sequelize.next_rows prodId rows) = List.length rows
  /\ Sequelize.occurrences prodId (Sequelize.next_rows prodId rows)
     = Sequelize.occurrences prodId rows.
Proof.
  intros H. unfold Sequelize.next_rows. rewrite H.
  unfold Sequelize.quantity_of, Sequelize.occurrences.
  generalize (Sequelize.quantity r + 1) as q. intros q.
  split; [|split; [apply length_map|]].
  - revert H.
    induction rows as [|x rows IH]; simpl; [discriminate|].
    destruct (Sequelize.productId x =? prodId)%N eqn:E; simpl; rewrite E;
      intros H; [reflexivity | exact (IH H)].
  - clear H. induction rows as [|x rows IH]; simpl; [reflexivity|].
    destruct (Sequelize.productId x =? prodId)%N eqn:E; simpl; rewrite E;
      simpl; congruence.
Qed.

(** The Mongoose [postCart] hands the product to [user.addToCart], which is
    modelled from the spec; on that model, [n] requests of one user for one
    product, from an empty cart, leave one entry with quantity [n], a
    request for a product that has an entry raises its quantity by one and
    one for a product without entry appends an entry with quantity one. *)
Lemma mongoose_postCart_counts_requests
    (n : nat) (w : World) (uid : ObjectId) (u : User) (prodId : string)
    (pid : ObjectId) (p : Product) :
  session_user uid w = Some u ->
  castObjectId prodId = Some pid ->
  find_product pid (product_docs (db w)) = Some p ->
  calm w = true ->
  (cart_items u = [] ->
   let items := cart_of uid (postCart_times n uid prodId w) in
   quantity_of pid items = Z.of_nat n /\ (occurrences pid items <= 1)%nat)
  /\ (let items' := cart_of uid (snd (postCart u prodId w)) in
      (forall i,
         find (fun c => String.eqb (productId c) pid) (cart_items u) = Some i ->
         quantity_of pid items' = quantity i + 1
         /\ List.length items' = List.length (cart_items u)
         /\ occurrences pid items' = occurrences pid (cart_items u))
      /\ (find (fun c => String.eqb (productId c) pid) (cart_items u) = None ->
          items' = (cart_items u ++ [mkCartItem pid 1])%list)).
Proof.
  intros Hu Hc Hp Hq. split.
  - intros Hi items.
    destruct (postCart_times_items n uid u prodId pid p w Hu Hi Hc Hp Hq)
      as (_ & _ & E).
    unfold items, cart_of. rewrite E. apply items_after_count.
  - intros items'.
    pose proof (session_user_id _ _ _ Hu) as Hid. subst uid.
    destruct (postCart_step u prodId pid p w Hc Hp Hq Hu)
      as (w' & E & _ & _ & Eu).
    unfold items', cart_of. rewrite E. cbn [snd]. rewrite Eu.
    cbn [cart_items]. split.
    + intros i Hi. apply (add_item_present pid _ i Hi).
    + intros Hn. apply (add_item_absent pid _ Hn).
Qed.

(** C5: after [n] add-to-cart requests for one product, from an empty
    cart, with the product in the catalog and a store that answers, the
    quantity recorded for the product is [n] and the product has at most
    one entry in the cart.  On any cart of that shop, a request for a
    product that has an entry raises the quantity of the entry by one and
    adds no entry, and a request for a product without entry appends one
    with quantity one. *)
Theorem add_to_cart_counts_requests
    (n : nat) (s : Sequelize.State) (prodId : N) (p : Sequelize.ProductRow) :
  Sequelize.cart s = Some [] ->
  Sequelize.findByPk prodId s = Some p ->
  Sequelize.calm s = true ->
  (exists rows,
     Sequelize.cart (Sequelize.postCart_times n prodId s) = Some rows
     /\ Sequelize.quantity_of prodId rows = Z.of_nat n
     /\ (Sequelize.occurrences prodId rows <= 1)%nat)
  /\ (forall (s1 : Sequelize.State) (rows : list Sequelize.CartItemRow),
        Sequelize.products s1 = Sequelize.products s ->
        Sequelize.cart s1 = Some rows ->
        Sequelize.calm s1 = true ->
        exists rows',
          fst (Sequelize.postCart prodId s1) = Redirect "/cart"
          /\ Sequelize.cart (snd (Sequelize.postCart prodId s1)) = Some rows'
          /\ (forall r,
                find (fun x => (Sequelize.productId x =? prodId)%N) rows
                = Some r ->
                Sequelize.quantity_of prodId rows' = Sequelize.quantity r + 1
                /\ List.length rows' = List.length rows
                /\ Sequelize.occurrences prodId rows'
                   = Sequelize.occurrences prodId rows)
          /\ (find (fun x => (Sequelize.productId x =? prodId)%N) rows = None ->
              rows' = (rows ++ [Sequelize.mkCartItemRow prodId 1])%list)).
Proof.
  intros Hc Hp Hq. split.
  - destruct (SequelizeFacts.postCart_times_rows n prodId s p Hc Hp Hq)
      as (_ & _ & E).
    exists (Sequelize.rows_after n prodId).
    split; [exact E | apply SequelizeFacts.rows_after_count].
  - intros s1 rows Hps Hc1 Hq1.
    assert (Hp1 : Sequelize.findByPk prodId s1 = Some p)
      by (unfold Sequelize.findByPk in *; rewrite Hps; exact Hp).
    destruct (SequelizeFacts.row_step prodId s1 p rows Hc1 Hp1 Hq1)
      as (s' & E & _ & _ & Ec).
    exists (Sequelize.next_rows prodId rows).
    rewrite E. split; [reflexivity|]. split; [exact Ec|]. split.
    + intros r Hr. apply (next_rows_present prodId rows r Hr).
    + intros Hn. unfold Sequelize.next_rows. rewrite Hn. reflexivity.
Qed.

Lemma add_to_cart_counts_requests_witness :
  (exists rows,
     Sequelize.cart (Sequelize.postCart_times 3 1 Sample.catalog) = Some rows
     /\ Sequelize.quantity_of 1 rows = Z.of_nat 3
     /\ (Sequelize.occurrences 1 rows <= 1)%nat)
  /\ (forall (s1 : Sequelize.State) (rows : list Sequelize.CartItemRow),
        Sequelize.products s1 = Sequelize.products Sample.catalog ->
        Sequelize.cart s1 = Some rows ->
        Sequelize.calm s1 = true ->
        exists rows',
          fst (Sequelize.postCart 1 s1) = Redirect "/cart"
          /\ Sequelize.cart (snd (Sequelize.postCart 1 s1)) = Some rows'
          /\ (forall r,
                find (fun x => (Sequelize.productId x =? 1)%N) rows = Some r ->
                Sequelize.quantity_of 1 rows' = Sequelize.quantity r + 1
                /\ List.length rows' = List.length rows
                /\ Sequelize.occurrences 1 rows'
                   = Sequelize.occurrences 1 rows)
          /\ (find (fun x => (Sequelize.productId x =? 1)%N) rows = None ->
              rows' = (rows ++ [Sequelize.mkCartItemRow 1 1])%list)).
Proof.
  apply (add_to_cart_counts_requests 3 Sample.catalog 1%N
           (Sequelize.mkProductRow 1 "Book" 10)); reflexivity.
Defined.

Example three_requests_one_entry :
  Sequelize.cart (Sequelize.postCart_times 3 1 Sample.catalog)
  = Some [Sequelize.mkCartItemRow 1 3]
  /\ cart_of Sample.bob_id
       (postCart_times 3 Sample.bob_id Sample.book_id Sample.shop)
     = [mkCartItem Sample.book_id 3]
  /\ cart_of Sample.alice_id
       (postCart_times 2 Sample.alice_id Sample.pen_id Sample.shop)
     = [mkCartItem Sample.book_id 1; mkCartItem Sample.pen_id 2].
Proof. vm_compute. auto. Qed.

(** * Further properties of the handlers *)

(** ** Pages of the listing *)

Lemma page_prods_quiet (p : Z) (w : World) :
  1 <= p -> quiet 2 w = true ->
  page_prods p w
  = firstn 3 (skipn (Z.to_nat ((p - 1) * 3)) (product_docs (db w))).
Proof.
  intros Hp Hq. unfold page_prods.
  destruct (getProducts_page_ok p w Hp Hq) as [w' [E _]].
  rewrite E. reflexivity.
Qed.

Lemma firstn_add_skipn {A} (a b : nat) (l : list A) :
  firstn (a + b) l = (firstn a l ++ firstn b (skipn a l))%list.
Proof.
  revert l. induction a as [|a IH]; intros l; simpl; [reflexivity|].
  destruct l as [|x l]; simpl.
  - rewrite firstn_nil. reflexivity.
  - rewrite IH. reflexivity.
Qed.

(** Consecutive chunks of three make up a prefix. *)
Lemma chunks_prefix {A} (l : list A) (n : nat) :
  List.concat (map (fun k => firstn 3 (skipn (3 * k) l)) (seq 0 n))
  = firstn (3 * n) l.
Proof.
  induction n as [|n IH]; [reflexivity|].
  rewrite seq_S, map_app, concat_app, IH. simpl map. simpl List.concat.
  rewrite app_nil_r.
  replace (3 * S n)%nat with (3 * n + 3)%nat by lia.
  rewrite firstn_add_skipn. reflexivity.
Qed.

(** The pages 1 to [lastPage], one after the other, are the catalog: every
    product is shown on exactly one page, in catalog order. *)
Theorem pages_make_up_catalog (w : World) :
  quiet 2 w = true ->
  let docs := product_docs (db w) in
  let last := JS.ceil_div (Z.of_nat (List.length docs)) ITEMS_PER_PAGE in
  List.concat (map (fun k => page_prods (Z.of_nat k) w) (seq 1 (Z.to_nat last)))
  = docs.
Proof.
  intros Hq docs last.
  rewrite <- seq_shift, map_map.
  rewrite (map_ext_in _ (fun k => firstn 3 (skipn (3 * k) docs))).
  - rewrite chunks_prefix. apply firstn_all2.
    pose proof (ceil_div_bounds (Z.of_nat (List.length docs)) 3 ltac:(lia))
      as B.
    fold ITEMS_PER_PAGE in B. fold last in B. unfold ITEMS_PER_PAGE in B.
    lia.
  - intros k _. rewrite page_prods_quiet by (try exact Hq; lia).
    fold docs. do 2 f_equal. lia.
Qed.

Lemma pages_make_up_catalog_witness :
  let docs := product_docs (db Sample.shop) in
  let last := JS.ceil_div (Z.of_nat (List.length docs)) ITEMS_PER_PAGE in
  List.concat (map (fun k => page_prods (Z.of_nat k) Sample.shop)
              (seq 1 (Z.to_nat last)))
  = docs.
Proof.
  apply (pages_make_up_catalog Sample.shop). reflexivity.
Defined.

(** For a page [p] with [1 <= p <= 2^53]: there is a next page exactly
    when [p] is before the last page, and a previous page exactly when
    [p > 1]; the previous page is [p - 1] and, for [p] below [2^53], the
    next page is [p + 1]; a page before the last holds three products,
    every page up to the last holds at least one, and a page after the last
    is empty. *)
Theorem listing_navigation (p : Z) (w : World) :
  1 <= p <= JS.two53 -> quiet 2 w = true ->
  exists l w',
    getProducts_page p w
    = (inr (Render "shop/product-list"
              (ListingLocals "All Products" "/products" l)), w')
    /\ (hasNextPage l = true <-> p < lastPage l)
    /\ (hasPrevPage l = true <-> 1 < p)
    /\ (p < JS.two53 -> nextPage l = p + 1) /\ prevPage l = p - 1
    /\ (p < lastPage l -> List.length (prods l) = 3%nat)
    /\ (p <= lastPage l -> prods l <> [])
    /\ (lastPage l < p -> prods l = []).
Proof.
  intros [Hp Hmax] Hq.
  destruct (getProducts_page_ok p w Hp Hq) as [w' [E _]].
  eexists; exists w'. split; [exact E|]. cbn [hasNextPage hasPrevPage
    nextPage prevPage lastPage prods].
  set (docs := product_docs (db w)).
  pose proof (ceil_div_bounds (Z.of_nat (List.length docs)) 3 ltac:(lia))
    as B.
  set (last := JS.ceil_div (Z.of_nat (List.length docs)) 3) in *.
  assert (L : List.length (firstn 3 (skipn (Z.to_nat ((p - 1) * 3)) docs))
              = Nat.min 3 (List.length docs - Z.to_nat ((p - 1) * 3)))
    by (rewrite length_firstn, length_skipn; reflexivity).
  split; [rewrite Z.ltb_lt; lia|].
  split; [apply Z.ltb_lt|].
  split; [intros _; reflexivity|]. split; [reflexivity|].
  split; [intros H; rewrite L; lia|].
  split.
  - intros H E0. rewrite E0 in L. cbn [List.length] in L. lia.
  - intros H. apply length_zero_iff_nil. rewrite L. lia.
Qed.

Lemma listing_navigation_witness :
  exists l w',
    getProducts_page 2 Sample.shop
    = (inr (Render "shop/product-list"
              (ListingLocals "All Products" "/products" l)), w')
    /\ (hasNextPage l = true <-> 2 < lastPage l)
    /\ (hasPrevPage l = true <-> 1 < 2)
    /\ (2 < JS.two53 -> nextPage l = 2 + 1) /\ prevPage l = 2 - 1
    /\ (2 < lastPage l -> List.length (prods l) = 3%nat)
    /\ (2 <= lastPage l -> prods l <> [])
    /\ (lastPage l < 2 -> prods l = []).
Proof.
  apply (listing_navigation 2 Sample.shop);
    [unfold JS.two53; lia | reflexivity].
Defined.

(** ** Page numbers written in decimal *)

Lemma span_digits_uint (d : Decimal.uint) :
  JS.span_digits 10 (list_ascii_of_string (NilEmpty.string_of_uint d))
  = (udigits d, []).
Proof.
  induction d; cbn [NilEmpty.string_of_uint list_ascii_of_string udigits];
    [reflexivity | ..];
    cbn [JS.span_digits]; rewrite IHd; reflexivity.
Qed.

Lemma digits_value_uint (d d' : Decimal.uint) :
  fold_left (fun acc x => (acc * 10 + x)%N) (udigits d)
    (DecimalPos.Unsigned.of_lu d')
  = DecimalPos.Unsigned.of_lu (Decimal.revapp d d').
Proof.
  revert d'.
  induction d; intros d'; cbn [udigits fold_left Decimal.revapp];
    [reflexivity | ..];
    rewrite <- IHd; f_equal; cbn [DecimalPos.Unsigned.of_lu]; lia.
Qed.

Lemma digits_value_to_uint (p : positive) :
  JS.digits_value 10 (udigits (Pos.to_uint p)) = Npos p.
Proof.
  unfold JS.digits_value.
  change 0%N with (DecimalPos.Unsigned.of_lu Decimal.Nil).
  rewrite digits_value_uint.
  change (Decimal.revapp (Pos.to_uint p) Decimal.Nil)
    with (Decimal.rev (Pos.to_uint p)).
  rewrite <- DecimalPos.Unsigned.of_uint_alt.
  apply DecimalPos.Unsigned.of_to.
Qed.

Lemma digit_char_facts (c : ascii) :
  is_digit c = true ->
  JS.is_ws c = false /\ JS.radix_of c = None
  /\ (JS.code c =? 45)%N = false /\ (JS.code c =? 43)%N = false
  /\ Ascii.eqb c "I" = false.
Proof.
  destruct c as [[] [] [] [] [] [] [] []]; vm_compute; intros H;
    try discriminate H; repeat split.
Qed.

Lemma uint_chars_digits (d : Decimal.uint) :
  Forall (fun c => is_digit c = true)
         (list_ascii_of_string (NilEmpty.string_of_uint d)).
Proof.
  induction d; cbn [NilEmpty.string_of_uint list_ascii_of_string];
    constructor; try exact IHd; reflexivity.
Qed.

Lemma drop_ws_digits (s : list ascii) :
  Forall (fun c => is_digit c = true) s -> JS.drop_ws s = s.
Proof.
  intros H. destruct H as [|c r Hc _]; [reflexivity|].
  simpl. destruct (digit_char_facts c Hc) as [-> _]. reflexivity.
Qed.

Lemma trim_digits (s : list ascii) :
  Forall (fun c => is_digit c = true) s -> JS.trim s = s.
Proof.
  intros H. unfold JS.trim.
  rewrite (drop_ws_digits s H).
  rewrite (drop_ws_digits (rev s)) by (apply Forall_rev; exact H).
  apply rev_involutive.
Qed.

(** [+] applied to the decimal numeral of an integer that a double holds
    exactly gives the integer back. *)
Lemma StringToNumber_show (z : Z) :
  0 <= z <= JS.two53 -> JS.StringToNumber (show z) = JInt z.
Proof.
  intros [H0 H53]. destruct z as [|p|p]; [reflexivity | | lia].
  unfold show, JS.StringToNumber.
  change (NilEmpty.string_of_int (Z.to_int (Z.pos p)))
    with (NilEmpty.string_of_uint (Pos.to_uint p)).
  pose proof (uint_chars_digits (Pos.to_uint p)) as Hd.
  pose proof (span_digits_uint (Pos.to_uint p)) as Hs.
  pose proof (digits_value_to_uint p) as Hv.
  rewrite (trim_digits _ Hd).
  destruct (list_ascii_of_string (NilEmpty.string_of_uint (Pos.to_uint p)))
    as [|c r] eqn:Ec.
  - injection Hs as Hs. rewrite <- Hs in Hv. discriminate Hv.
  - assert (Hn : JS.non_decimal (c :: r) = None).
    { unfold JS.non_decimal. destruct r as [|x r']; [reflexivity|].
      inversion Hd as [|? ? _ Hr]; subst. inversion Hr as [|? ? Hx _]; subst.
      destruct (digit_char_facts x Hx) as (_ & -> & _).
      destruct (JS.code c =? 48)%N; reflexivity. }
    rewrite Hn.
    inversion Hd as [|? ? Hc _]; subst.
    destruct (digit_char_facts c Hc) as (_ & _ & -> & -> & Hi).
    unfold JS.decimal, JS.list_ascii_eqb.
    cbn [string_of_list_ascii JS.Infinity_lit list_ascii_of_string
         String.eqb]. rewrite Hi.
    unfold JS.unsigned_decimal. rewrite Hs. rewrite app_nil_r.
    destruct (udigits (Pos.to_uint p)) as [|k ks] eqn:Ek;
      [discriminate Hv|].
    cbn [JS.exponent List.length Z.of_nat Z.sub Z.opp Z.add].
    unfold JS.scaled. rewrite Hv.
    cbn [N.eqb Z.leb Z.compare Z.ltb Z.to_N N.pow].
    rewrite N.mul_1_r. unfold JS.exact_int.
    change (Z.of_N (N.pos p)) with (Z.pos p).
    destruct (Z.leb_spec (Z.pos p) JS.two53); [reflexivity | lia].
Qed.

(** A listing request whose [page] parameter is the decimal numeral of an
    integer [p] with [1 <= p <= 2^53] is served by the handler body run at
    page [p], for the product list and for the index alike. *)
Theorem decimal_page_parameter (p : Z) :
  1 <= p <= JS.two53 ->
  getProducts (Some (QStr (show p))) = Some (getProducts_page p)
  /\ getIndex (Some (QStr (show p))) = Some (getIndex_page p).
Proof.
  intros H.
  assert (E : JS.or_one (JS.unary_plus (Some (QStr (show p)))) = JInt p).
  { cbn [JS.unary_plus JS.ToString].
    rewrite StringToNumber_show by lia. apply or_one_page. lia. }
  unfold getProducts, getIndex. rewrite E. split; reflexivity.
Qed.

Lemma decimal_page_parameter_witness :
  getProducts (Some (QStr (show 12))) = Some (getProducts_page 12)
  /\ getIndex (Some (QStr (show 12))) = Some (getIndex_page 12).
Proof.
  apply (decimal_page_parameter 12). unfold JS.two53. lia.
Defined.

(** ** Invoices: orders that are missing, and the owner's document *)

(** An invoice request whose id names no order is answered through [next]
    with an error that carries no status code, [No order found] when the
    id can be cast, and leaves the invoice files and the store as they
    were. *)
Theorem invoice_of_unknown_order
    (req_user : User) (orderId : string) (w : World) :
  (forall i, castObjectId orderId = Some i ->
             find_order i (order_docs (db w)) = None) ->
  quiet 1 w = true ->
  exists e w',
    getInvoice req_user orderId w = (inr (Next e), w')
    /\ httpStatusCode e = None
    /\ (castObjectId orderId <> None -> message e = "No order found")
    /\ files w' = files w /\ db w' = db w.
Proof.
  intros H Hq. destruct w as [d fl pay f n]. unfold quiet in Hq.
  simpl in *. unfold getInvoice; run_monad; simpl.
  destruct (castObjectId orderId) as [i|] eqn:Ec; simpl.
  - specialize (H i eq_refl).
    destruct f as [|[] f]; simpl in *; try discriminate; rewrite H; simpl;
      eexists; eexists; repeat split; reflexivity.
  - eexists; eexists; repeat split; try reflexivity.
    intros C. contradiction.
Qed.

Lemma invoice_of_unknown_order_witness :
  exists e w',
    getInvoice Sample.alice Sample.absent_id Sample.shop_after_order
    = (inr (Next e), w')
    /\ httpStatusCode e = None
    /\ (castObjectId Sample.absent_id <> None ->
        message e = "No order found")
    /\ files w' = files Sample.shop_after_order
    /\ db w' = db Sample.shop_after_order.
Proof.
  apply (invoice_of_unknown_order Sample.alice Sample.absent_id
           Sample.shop_after_order).
  - intros i H. vm_compute in H. injection H as <-. reflexivity.
  - reflexivity.
Defined.

Lemma invoice_fold (ps : list OrderItem) :
  forall (acc : Z) (doc : Pdf),
    fold_left invoice_step ps (acc, doc)
    = (acc + order_sum ps,
       (doc ++ flat_map (fun l => [MoveDown; FontSize 14;
                                   Text (invoice_line l) false]) ps)%list).
Proof.
  unfold order_sum.
  induction ps as [|l ps IH]; intros acc doc; simpl.
  - rewrite Z.add_0_r, app_nil_r. reflexivity.
  - rewrite IH. f_equal; [lia|].
    rewrite <- app_assoc. reflexivity.
Qed.

Lemma texts_app (a b : Pdf) :
  texts (a ++ b)%list = (texts a ++ texts b)%list.
Proof. unfold texts. apply flat_map_app. Qed.

Lemma texts_lines (ps : list OrderItem) :
  texts (flat_map (fun l => [MoveDown; FontSize 14;
                             Text (invoice_line l) false]) ps)
  = map invoice_line ps.
Proof.
  induction ps as [|l ps IH]; [reflexivity|].
  simpl. f_equal. exact IH.
Qed.

Lemma invoice_pdf_texts (o : Order) :
  texts (invoice_pdf o)
  = ("Invoice" :: map invoice_line (products o)
     ++ [total_line (products o)])%list.
Proof.
  unfold invoice_pdf, invoice_body. rewrite invoice_fold.
  rewrite !texts_app, texts_lines. reflexivity.
Qed.

Lemma read_written (path : string) (doc : Pdf) (w : World) :
  let w' := snd (write_file path doc w) in
  read_file path w' = Some doc
  /\ (forall other, other <> path -> read_file other w' = read_file other w).
Proof.
  unfold read_file, write_file; simpl. rewrite String.eqb_refl. split;
    [reflexivity|].
  intros other Ho. apply String.eqb_neq in Ho.
  rewrite String.eqb_sym, Ho.
  induction (files w) as [|f fs IH]; simpl; [reflexivity|].
  destruct (String.eqb (fst f) path) eqn:E; simpl.
  - apply String.eqb_eq in E. rewrite E, String.eqb_sym, Ho. exact IH.
  - destruct (String.eqb (fst f) other); [reflexivity | exact IH].
Qed.

Lemma getInvoice_owner_run
    (req_user : User) (orderId : string) (i : ObjectId) (o : Order)
    (w : World) :
  castObjectId orderId = Some i ->
  find_order i (order_docs (db w)) = Some o ->
  order_userId o = user_id req_user ->
  quiet 1 w = true ->
  exists w1,
    getInvoice req_user orderId w
    = (inr (SendPdf "application/pdf"
              ("inline; filename=" ++ dquote ++ invoice_name orderId
               ++ dquote) (invoice_pdf o)),
       snd (write_file (invoice_path orderId) (invoice_pdf o) w1))
    /\ files w1 = files w /\ db w1 = db w.
Proof.
  intros Hc Hf Ho Hq.
  apply String.eqb_eq in Ho.
  destruct w as [d fl pay f n]. unfold quiet in Hq. simpl in *.
  unfold getInvoice; run_monad; simpl. rewrite Hc; simpl.
  destruct f as [|[] f]; simpl in *; try discriminate; rewrite Hf, Ho;
    simpl.
  - exists (mkWorld d fl pay [] n). repeat split.
  - exists (mkWorld d fl pay f n). repeat split.
Qed.

(** The owner of an order gets its invoice.  For an order id written in
    hexadecimal digits and an order whose prices, quantities, products and
    running totals are integers that doubles hold exactly: the PDF sent to
    the client is the document stored under
    [data/invoices/invoice-<orderId>.pdf], no other file and nothing in the
    store changes, and the document reads [Invoice], one line per entry of
    the order in order, and a total that is the sum of price times quantity
    over the entries. *)
Theorem invoice_of_own_order
    (req_user : User) (orderId : string) (i : ObjectId) (o : Order)
    (w : World) :
  castObjectId orderId = Some i ->
  hex_string orderId = true ->
  find_order i (order_docs (db w)) = Some o ->
  exact_totals 0 (products o) = true ->
  order_userId o = user_id req_user ->
  quiet 1 w = true ->
  exists doc w',
    getInvoice req_user orderId w
    = (inr (SendPdf "application/pdf"
              ("inline; filename=" ++ dquote ++ invoice_name orderId
               ++ dquote) doc), w')
    /\ read_file (invoice_path orderId) w' = Some doc
    /\ (forall other, other <> invoice_path orderId ->
          read_file other w' = read_file other w)
    /\ db w' = db w
    /\ texts doc
       = ("Invoice" :: map invoice_line (products o)
          ++ [total_line (products o)])%list.
Proof.
  intros Hc _ Hf _ Ho Hq.
  exists (invoice_pdf o).
  pose proof (getInvoice_owner_run req_user orderId i o w Hc Hf Ho Hq) as R.
  destruct R as (w1 & E & Ef & Ed).
  destruct (read_written (invoice_path orderId) (invoice_pdf o) w1)
    as [R1 R2].
  eexists. split; [exact E|].
  split; [exact R1|].
  split.
  - intros other Hn. rewrite (R2 other Hn). unfold read_file.
    rewrite Ef. reflexivity.
  - split; [exact Ed | apply invoice_pdf_texts].
Qed.

Lemma invoice_of_own_order_witness :
  exists doc w',
    getInvoice (mkUser Sample.alice_id "alice@example.com" [])
      Sample.first_order_id Sample.shop_after_order
    = (inr (SendPdf "application/pdf"
              ("inline; filename=" ++ dquote
               ++ invoice_name Sample.first_order_id ++ dquote) doc), w')
    /\ read_file (invoice_path Sample.first_order_id) w' = Some doc
    /\ (forall other, other <> invoice_path Sample.first_order_id ->
          read_file other w' = read_file other Sample.shop_after_order)
    /\ db w' = db Sample.shop_after_order
    /\ texts doc
       = ("Invoice" :: map invoice_line (products Sample.alice_order)
          ++ [total_line (products Sample.alice_order)])%list.
Proof.
  apply (invoice_of_own_order (mkUser Sample.alice_id "alice@example.com" [])
           Sample.first_order_id Sample.first_order_id Sample.alice_order
           Sample.shop_after_order); reflexivity.
Defined.

(** ** The checkout page *)

(** Whatever the store and the payment service do, [getCheckout] writes
    nothing to the store and no file.  It either renders the checkout page,
    having sent exactly one session request, or answers through [next]
    with status 500, having recorded no request. *)
Theorem getCheckout_effects (u : User) (origin : string) (w : World) :
  let res := fst (getCheckout u origin w) in
  let w' := snd (getCheckout u origin w) in
  db w' = db w /\ files w' = files w
  /\ ((exists t sid req,
         res = inr (Render "shop/checkout"
                      (CheckoutLocals "Checkout" "/checkout"
                         (populated u (db w)) t sid))
         /\ sum_cart 0 (populated u (db w)) = inr t
         /\ payments w' = (payments w ++ [req])%list)
      \/ (exists e,
            res = inr (Next e) /\ httpStatusCode e = Some 500
            /\ payments w' = payments w)).
Proof.
  destruct w as [d fl pay f n].
  unfold getCheckout, sessions_create; run_monad; simpl.
  destruct f as [|[] f1]; simpl;
    try (repeat split; right; eexists; repeat split; reflexivity);
    (destruct (sum_cart 0 (populated u d)) as [e|t] eqn:Et; simpl;
     [repeat split; right; eexists; repeat split; reflexivity|]);
    (destruct (to_line_items (populated u d)) as [e|ls] eqn:El; simpl;
     [repeat split; right; eexists; repeat split; reflexivity|]).
  - repeat split. left. exists t. eexists. eexists. repeat split.
  - destruct f1 as [|[] f2]; simpl; repeat split.
    + left. exists t. eexists. eexists. repeat split.
    + right. eexists. repeat split.
    + left. exists t. eexists. eexists. repeat split.
Qed.

Lemma snapshot_of_missing (items : list PopulatedItem) (i : PopulatedItem) :
  In i items -> pop_product i = None ->
  exists e, snapshot items = inl e.
Proof.
  induction items as [|x items IH]; simpl; [contradiction|].
  intros [-> | Hin] Hn.
  - rewrite Hn. eexists. reflexivity.
  - destruct (pop_product x); [|eexists; reflexivity].
    destruct (IH Hin Hn) as [e ->]. eexists. reflexivity.
Qed.

Lemma sum_cart_of_missing (items : list PopulatedItem) (i : PopulatedItem) :
  In i items -> pop_product i = None ->
  forall acc, exists e, sum_cart acc items = inl e.
Proof.
  induction items as [|x items IH]; simpl; [contradiction|].
  intros [-> | Hin] Hn acc.
  - rewrite Hn. eexists. reflexivity.
  - destruct (pop_product x); [|eexists; reflexivity].
    apply (IH Hin Hn).
Qed.

Lemma populated_missing (u : User) (d : Db) (c : CartItem) :
  In c (cart_items u) ->
  find_product (productId c) (product_docs d) = None ->
  exists i, In i (populated u d) /\ pop_product i = None.
Proof.
  intros Hin Hn. exists (mkPopulated None (quantity c)). split; [|reflexivity].
  unfold populated. apply in_map_iff. exists c. rewrite Hn. auto.
Qed.

Lemma getCheckoutSuccess_missing (u : User) (w : World) (c : CartItem) :
  In c (cart_items u) ->
  find_product (productId c) (product_docs (db w)) = None ->
  (exists e, fst (getCheckoutSuccess u w) = inr (Next e))
  /\ db (snd (getCheckoutSuccess u w)) = db w.
Proof.
  intros Hin Hn.
  destruct (populated_missing u (db w) c Hin Hn) as (i & Hi & Hp).
  destruct (snapshot_of_missing _ i Hi Hp) as [es Hs].
  destruct (getCheckoutSuccess_outcome u w)
    as [e R E | e ps _ S _ | ps _ S _];
    try (rewrite Hs in S; discriminate).
  split; [exists e; exact R | exact E].
Qed.

Lemma getCheckout_missing
    (u : User) (origin : string) (w : World) (c : CartItem) :
  In c (cart_items u) ->
  find_product (productId c) (product_docs (db w)) = None ->
  (exists e, fst (getCheckout u origin w) = inr (Next e)
             /\ httpStatusCode e = Some 500)
  /\ payments (snd (getCheckout u origin w)) = payments w
  /\ db (snd (getCheckout u origin w)) = db w.
Proof.
  intros Hin Hn.
  destruct (populated_missing u (db w) c Hin Hn) as (i & Hi & Hp).
  destruct (sum_cart_of_missing _ i Hi Hp 0) as [ec Hc].
  destruct w as [d fl pay f n]. simpl in *.
  unfold getCheckout, sessions_create; run_monad; simpl.
  destruct f as [|[] f1]; simpl; try rewrite Hc; simpl;
    (split; [eexists; split; reflexivity | split; reflexivity]).
Qed.

(** When some cart entry refers to a product that is no longer in the
    catalog, the checkout page, the success callback and [postOrder] all
    answer through [next] with an error: no session request is sent, no
    order is created and the cart is left as it is. *)
Theorem checkout_with_vanished_product
    (u : User) (origin : string) (w : World) (c : CartItem) :
  In c (cart_items u) ->
  find_product (productId c) (product_docs (db w)) = None ->
  (exists e, fst (getCheckout u origin w) = inr (Next e)
             /\ httpStatusCode e = Some 500)
  /\ payments (snd (getCheckout u origin w)) = payments w
  /\ db (snd (getCheckout u origin w)) = db w
  /\ (exists e, fst (getCheckoutSuccess u w) = inr (Next e))
  /\ db (snd (getCheckoutSuccess u w)) = db w
  /\ (exists e, fst (postOrder u w) = inr (Next e))
  /\ db (snd (postOrder u w)) = db w.
Proof.
  intros Hin Hn.
  destruct (getCheckout_missing u origin w c Hin Hn) as (C1 & C2 & C3).
  destruct (getCheckoutSuccess_missing u w c Hin Hn) as [S1 S2].
  assert (E : postOrder u w = getCheckoutSuccess u w) by reflexivity.
  rewrite E. auto 10.
Qed.

Lemma checkout_with_vanished_product_witness :
  let u := mkUser Sample.bob_id "bob@example.com"
             [mkCartItem Sample.absent_id 2] in
  (exists e, fst (getCheckout u "http://shop.test" Sample.shop) = inr (Next e)
             /\ httpStatusCode e = Some 500)
  /\ payments (snd (getCheckout u "http://shop.test" Sample.shop))
     = payments Sample.shop
  /\ db (snd (getCheckout u "http://shop.test" Sample.shop)) = db Sample.shop
  /\ (exists e, fst (getCheckoutSuccess u Sample.shop) = inr (Next e))
  /\ db (snd (getCheckoutSuccess u Sample.shop)) = db Sample.shop
  /\ (exists e, fst (postOrder u Sample.shop) = inr (Next e))
  /\ db (snd (postOrder u Sample.shop)) = db Sample.shop.
Proof.
  apply (checkout_with_vanished_product
           (mkUser Sample.bob_id "bob@example.com"
              [mkCartItem Sample.absent_id 2])
           "http://shop.test" Sample.shop (mkCartItem Sample.absent_id 2)).
  - simpl. auto.
  - reflexivity.
Defined.

(** ** Orders after checkout: the orders page and the invoice *)

Lemma calm_tail (b : bool) (f : list bool) (d : Db) fl pay n :
  calm (mkWorld d fl pay (b :: f) n) = true ->
  b = false /\ calm (mkWorld d fl pay f n) = true.
Proof.
  unfold calm; simpl. destruct b; simpl; [discriminate | auto].
Qed.

Lemma calm_quiet (k : nat) (w : World) : calm w = true -> quiet k w = true.
Proof.
  unfold calm, quiet. generalize (faults w) as f. intros f; revert k.
  induction f as [|b f IH]; intros k H.
  - rewrite firstn_nil. reflexivity.
  - destruct k as [|k]; [reflexivity|]. simpl in *.
    apply andb_true_iff in H as [-> H]. simpl. apply IH, H.
Qed.

(** A completion request on a store that answers. *)
Lemma getCheckoutSuccess_calm (u : User) (w : World) (ps : list OrderItem) :
  calm w = true ->
  snapshot (populated u (db w)) = inr ps ->
  exists w',
    getCheckoutSuccess u w = (inr (Redirect "/orders"), w')
    /\ calm w' = true
    /\ files w' = files w
    /\ db w' = mkDb (product_docs (db w))
                    (replace_user (cleared u) (user_docs (db w)))
                    (order_docs (db w) ++ [order_of u w ps]).
Proof.
  destruct w as [d fl pay f n]. simpl. intros Hq Hs.
  unfold getCheckoutSuccess; run_monad; simpl.
  destruct f as [|b1 [|b2 [|b3 f]]];
    repeat match goal with
           | H : calm (mkWorld _ _ _ (_ :: _) _) = true |- _ =>
               apply calm_tail in H; destruct H as [-> H]
           end;
    simpl; rewrite Hs; simpl; eexists; repeat split; auto.
Qed.

Lemma getOrders_quiet (v : User) (w : World) :
  quiet 1 w = true ->
  listed_orders (fst (getOrders v w))
  = Some (filter (fun o => String.eqb (order_userId o) (user_id v))
                 (order_docs (db w)))
  /\ db (snd (getOrders v w)) = db w.
Proof.
  destruct w as [d fl pay f n]. unfold quiet; simpl. intros Hq.
  unfold getOrders; run_monad; simpl.
  destruct f as [|[] f]; simpl in *; try discriminate; auto.
Qed.

(** After a successful checkout on a store that answers, the orders page
    of the buyer shows the buyer's earlier orders followed by the new
    order, and the orders page of any other user shows what it showed
    before. *)
Theorem orders_page_after_checkout
    (u v : User) (w : World) (ps : list OrderItem) :
  calm w = true ->
  snapshot (populated u (db w)) = inr ps ->
  user_id v <> user_id u ->
  let w1 := snd (getCheckoutSuccess u w) in
  listed_orders (fst (getOrders u w1))
  = Some (filter (fun o => String.eqb (order_userId o) (user_id u))
                 (order_docs (db w)) ++ [order_of u w ps])%list
  /\ listed_orders (fst (getOrders v w1))
     = listed_orders (fst (getOrders v w))
  /\ listed_orders (fst (getOrders v w))
     = Some (filter (fun o => String.eqb (order_userId o) (user_id v))
                    (order_docs (db w))).
Proof.
  intros Hq Hs Hv w1.
  destruct (getCheckoutSuccess_calm u w ps Hq Hs) as (w' & E & Hq' & _ & Ed).
  unfold w1. rewrite E. cbn [snd].
  destruct (getOrders_quiet u w' (calm_quiet 1 w' Hq')) as [-> _].
  destruct (getOrders_quiet v w' (calm_quiet 1 w' Hq')) as [-> _].
  destruct (getOrders_quiet v w (calm_quiet 1 w Hq)) as [-> _].
  rewrite Ed. cbn [order_docs]. rewrite !filter_app. cbn [filter order_of
    order_userId]. rewrite String.eqb_refl.
  apply String.eqb_neq in Hv. rewrite String.eqb_sym, Hv, app_nil_r.
  auto.
Qed.

Lemma orders_page_after_checkout_witness :
  let w1 := snd (getCheckoutSuccess Sample.alice Sample.shop) in
  listed_orders (fst (getOrders Sample.alice w1))
  = Some (filter (fun o => String.eqb (order_userId o)
                             (user_id Sample.alice))
                 (order_docs (db Sample.shop))
          ++ [order_of Sample.alice Sample.shop [mkOrderItem 1 Sample.book]])%list
  /\ listed_orders (fst (getOrders Sample.bob w1))
     = listed_orders (fst (getOrders Sample.bob Sample.shop))
  /\ listed_orders (fst (getOrders Sample.bob Sample.shop))
     = Some (filter (fun o => String.eqb (order_userId o)
                                (user_id Sample.bob))
                    (order_docs (db Sample.shop))).
Proof.
  apply (orders_page_after_checkout Sample.alice Sample.bob Sample.shop
           [mkOrderItem 1 Sample.book]).
  - reflexivity.
  - reflexivity.
  - vm_compute. discriminate.
Defined.

(** Ids given to new documents are already in the form a cast produces. *)
Lemma hex_digit_canonical (d : N) :
  (d < 16)%N ->
  is_hex (hex_digit d) = true /\ lower_hex (hex_digit d) = hex_digit d.
Proof.
  intros H.
  assert (C : In d [0; 1; 2; 3; 4; 5; 6; 7; 8; 9; 10; 11; 12; 13; 14; 15]%N).
  { simpl. lia. }
  simpl in C.
  repeat (destruct C as [<- | C]; [vm_compute; auto|]). contradiction.
Qed.

Lemma hex_of_N_canonical (k : nat) :
  forall (v : N) (acc : list ascii),
    Forall (fun c => is_hex c = true /\ lower_hex c = c) acc ->
    Forall (fun c => is_hex c = true /\ lower_hex c = c) (hex_of_N k v acc)
    /\ List.length (hex_of_N k v acc) = (k + List.length acc)%nat.
Proof.
  induction k as [|k IH]; intros v acc H; simpl; [auto|].
  destruct (IH (v / 16)%N (hex_digit (v mod 16) :: acc)) as [F L].
  - constructor; [|exact H]. apply hex_digit_canonical.
    apply N.mod_lt. discriminate.
  - split; [exact F|]. rewrite L. simpl. lia.
Qed.

Lemma new_oid_cast (n : N) : castObjectId (new_oid n) = Some (new_oid n).
Proof.
  unfold castObjectId, new_oid.
  rewrite list_ascii_of_string_of_list_ascii.
  destruct (hex_of_N_canonical 24 n [] (Forall_nil _)) as [F L].
  rewrite L. cbn [Nat.add List.length Nat.eqb].
  assert (A : forallb is_hex (hex_of_N 24 n []) = true).
  { apply forallb_forall. intros c Hc.
    rewrite Forall_forall in F. apply (F c Hc). }
  assert (M : map lower_hex (hex_of_N 24 n []) = hex_of_N 24 n []).
  { rewrite <- (map_id (hex_of_N 24 n [])) at 2.
    apply map_ext_in. intros c Hc. rewrite Forall_forall in F.
    apply (F c Hc). }
  rewrite A, M. reflexivity.
Qed.

Lemma find_order_new (o : Order) (l : list Order) :
  find_order (order_id o) l = None ->
  find_order (order_id o) (l ++ [o]) = Some o.
Proof.
  unfold find_order. induction l as [|x l IH]; simpl.
  - rewrite String.eqb_refl. reflexivity.
  - destruct (String.eqb (order_id x) (order_id o)); [discriminate | exact IH].
Qed.

Lemma order_sum_of_snapshot (items : list PopulatedItem)
    (ps : list OrderItem) (t : Z) :
  snapshot items = inr ps -> sum_cart 0 items = inr t -> order_sum ps = t.
Proof.
  intros Hs Hc.
  pose proof (invoice_sum_of_snapshot items ps 0 t [] Hs Hc) as H.
  rewrite invoice_fold in H. exact H.
Qed.

(** After a successful checkout on a store that answers, the buyer's
    request for the invoice of the new order is served, and the total on
    the invoice is the total the checkout page computes from the cart the
    order was taken from. *)
Theorem invoice_after_checkout
    (u : User) (w : World) (ps : list OrderItem) (t : Z) :
  calm w = true ->
  snapshot (populated u (db w)) = inr ps ->
  sum_cart 0 (populated u (db w)) = inr t ->
  find_order (new_oid (next_oid w)) (order_docs (db w)) = None ->
  let w1 := snd (getCheckoutSuccess u w) in
  let orderId := new_oid (next_oid w) in
  exists doc w2,
    getInvoice u orderId w1
    = (inr (SendPdf "application/pdf"
              ("inline; filename=" ++ dquote ++ invoice_name orderId
               ++ dquote) doc), w2)
    /\ read_file (invoice_path orderId) w2 = Some doc
    /\ texts doc
       = ("Invoice" :: map invoice_line ps
          ++ [("Total price: $" ++ show t)%string])%list.
Proof.
  intros Hq Hs Hc Hfresh w1 orderId.
  destruct (getCheckoutSuccess_calm u w ps Hq Hs) as (w' & E & Hq' & _ & Ed).
  unfold w1. rewrite E. cbn [snd].
  assert (Hf : find_order orderId (order_docs (db w'))
               = Some (order_of u w ps)).
  { rewrite Ed. cbn [order_docs].
    apply (find_order_new (order_of u w ps)). exact Hfresh. }
  destruct (getInvoice_owner_run u orderId orderId (order_of u w ps) w'
              (new_oid_cast _) Hf eq_refl (calm_quiet 1 w' Hq'))
    as (w2 & R & _ & _).
  eexists. eexists. split; [exact R|].
  split; [apply read_written|].
  rewrite invoice_pdf_texts. cbn [order_of products]. unfold total_line.
  rewrite (order_sum_of_snapshot _ ps t Hs Hc). reflexivity.
Qed.

Lemma invoice_after_checkout_witness :
  let w1 := snd (getCheckoutSuccess Sample.alice Sample.shop) in
  let orderId := new_oid (next_oid Sample.shop) in
  exists doc w2,
    getInvoice Sample.alice orderId w1
    = (inr (SendPdf "application/pdf"
              ("inline; filename=" ++ dquote ++ invoice_name orderId
               ++ dquote) doc), w2)
    /\ read_file (invoice_path orderId) w2 = Some doc
    /\ texts doc
       = ("Invoice" :: map invoice_line [mkOrderItem 1 Sample.book]
          ++ [("Total price: $" ++ show 10)%string])%list.
Proof.
  apply (invoice_after_checkout Sample.alice Sample.shop
           [mkOrderItem 1 Sample.book] 10); reflexivity.
Defined.

(** ** Editing a product *)

Lemma replace_product_ids (p : Product) (l : list Product) :
  map prod_id (replace_product p l) = map prod_id l.
Proof.
  induction l as [|q l IH]; simpl; [reflexivity|].
  destruct (String.eqb (prod_id q) (prod_id p)) eqn:E; simpl.
  - apply String.eqb_eq in E. rewrite E. reflexivity.
  - rewrite IH. reflexivity.
Qed.

Lemma find_replace_product_same (p q : Product) (l : list Product) :
  find_product (prod_id p) l = Some q ->
  find_product (prod_id p) (replace_product p l) = Some p.
Proof.
  unfold find_product.
  induction l as [|x l IH]; simpl; [discriminate|].
  destruct (String.eqb (prod_id x) (prod_id p)) eqn:E; simpl.
  - rewrite String.eqb_refl. reflexivity.
  - rewrite E. exact IH.
Qed.

Lemma find_replace_product_other (p : Product) (j : ObjectId)
    (l : list Product) :
  j <> prod_id p ->
  find_product j (replace_product p l) = find_product j l.
Proof.
  unfold find_product. intros Hj.
  induction l as [|x l IH]; simpl; [reflexivity|].
  destruct (String.eqb (prod_id x) (prod_id p)) eqn:E; simpl.
  - apply String.eqb_eq in E.
    assert (A : String.eqb (prod_id p) j = false)
      by (apply String.eqb_neq; congruence).
    rewrite A, E, A. reflexivity.
  - destruct (String.eqb (prod_id x) j); [reflexivity | exact IH].
Qed.

(** The detail page on a store that answers. *)
Lemma getProduct_calm (prodId : string) (w : World) :
  calm w = true ->
  fst (getProduct prodId w)
  = inr match castObjectId prodId with
        | None => Next (error500 (CastError prodId))
        | Some i =>
            match find_product i (product_docs (db w)) with
            | Some p =>
                Render "shop/product-detail"
                  (DetailLocals (title p) "/products" p)
            | None =>
                Next (error500
                        (TypeError "Cannot read property 'title' of null"))
            end
        end.
Proof.
  destruct w as [d fl pay f n]. intros Hq.
  unfold getProduct; run_monad; simpl.
  destruct (castObjectId prodId) as [i|]; simpl; [|reflexivity].
  destruct f as [|b f]; [|apply calm_tail in Hq; destruct Hq as [-> _]];
    simpl; destruct (find_product i (product_docs d)); reflexivity.
Qed.

(** An edit request never adds, removes or reorders products, and never
    touches users, orders, files or payment records.  It ends either in the
    redirect to the admin product list or, on any failure, without a
    response and with the store as it was. *)
Theorem edit_keeps_catalog_shape (body : EditForm) (w : World) :
  let res := fst (postEditProduct body w) in
  let w' := snd (postEditProduct body w) in
  map prod_id (product_docs (db w')) = map prod_id (product_docs (db w))
  /\ user_docs (db w') = user_docs (db w)
  /\ order_docs (db w') = order_docs (db w)
  /\ files w' = files w /\ payments w' = payments w
  /\ (res = inr (Redirect "/admin/products")
      \/ (res = inr NoResponse /\ db w' = db w)).
Proof.
  destruct w as [d fl pay f n].
  unfold postEditProduct; run_monad; simpl.
  destruct (castObjectId (form_productId body)) as [i|]; simpl;
    [|repeat split; auto].
  destruct f as [|[] f1]; simpl; try (repeat split; auto; fail);
    (destruct (find_product i (product_docs d)) as [p|]; simpl;
     [|repeat split; auto];
     destruct (form_price body) as [pr|]; simpl; [|repeat split; auto]).
  - repeat split; auto. apply replace_product_ids.
  - destruct f1 as [|[] f2]; simpl; repeat split; auto;
      apply replace_product_ids.
Qed.

Lemma postEditProduct_calm
    (body : EditForm) (i : ObjectId) (p : Product) (pr : Z) (w : World) :
  calm w = true ->
  castObjectId (form_productId body) = Some i ->
  find_product i (product_docs (db w)) = Some p ->
  form_price body = Some pr ->
  exists w',
    postEditProduct body w = (inr (Redirect "/admin/products"), w')
    /\ calm w' = true
    /\ db w' = mkDb (replace_product
                       (mkProduct (prod_id p) (form_title body) pr
                          (form_description body) (form_imageUrl body)
                          (userId p))
                       (product_docs (db w)))
                    (user_docs (db w)) (order_docs (db w)).
Proof.
  destruct w as [d fl pay f n]. simpl. intros Hq Hc Hf Hp.
  unfold postEditProduct; run_monad; simpl. rewrite Hc; simpl.
  destruct f as [|b1 [|b2 f]];
    repeat match goal with
           | H : calm (mkWorld _ _ _ (_ :: _) _) = true |- _ =>
               apply calm_tail in H; destruct H as [-> H]
           end;
    simpl; rewrite Hf; simpl; rewrite Hp; simpl;
    eexists; repeat split; auto.
Qed.

(** After an edit accepted by a store that answers, the detail page of the
    product shows the submitted title, price, description and image under
    the product's old id and owner, and the detail page of every other
    product is what it was. *)
Theorem edit_shows_on_detail_page
    (body : EditForm) (i : ObjectId) (p : Product) (pr : Z) (w : World) :
  calm w = true ->
  castObjectId (form_productId body) = Some i ->
  find_product i (product_docs (db w)) = Some p ->
  form_price body = Some pr ->
  let w1 := snd (postEditProduct body w) in
  let p' := mkProduct i (form_title body) pr (form_description body)
              (form_imageUrl body) (userId p) in
  fst (postEditProduct body w) = inr (Redirect "/admin/products")
  /\ fst (getProduct (form_productId body) w1)
     = inr (Render "shop/product-detail"
              (DetailLocals (form_title body) "/products" p'))
  /\ (forall other j,
        castObjectId other = Some j -> j <> i ->
        fst (getProduct other w1) = fst (getProduct other w)).
Proof.
  intros Hq Hc Hf Hp w1 p'.
  pose proof (find_product_id _ _ _ Hf) as Hid.
  destruct (postEditProduct_calm body i p pr w Hq Hc Hf Hp)
    as (w' & E & Hq' & Ed).
  unfold w1. rewrite E. cbn [fst snd]. rewrite Hid in Ed. fold p' in Ed.
  split; [reflexivity|]. split.
  - rewrite (getProduct_calm _ w' Hq'), Hc, Ed. cbn [product_docs].
    change i with (prod_id p') at 1.
    rewrite (find_replace_product_same p' p); [reflexivity|].
    exact Hf.
  - intros other j Hj Hn.
    rewrite (getProduct_calm _ w' Hq'), (getProduct_calm _ w Hq), Hj, Ed.
    cbn [product_docs].
    rewrite (find_replace_product_other p' j); [reflexivity | exact Hn].
Qed.

Lemma edit_shows_on_detail_page_witness :
  let w1 := snd (postEditProduct Sample.raise_book Sample.shop) in
  let p' := mkProduct Sample.book_id (form_title Sample.raise_book) 20
              (form_description Sample.raise_book)
              (form_imageUrl Sample.raise_book) (userId Sample.book) in
  fst (postEditProduct Sample.raise_book Sample.shop)
  = inr (Redirect "/admin/products")
  /\ fst (getProduct (form_productId Sample.raise_book) w1)
     = inr (Render "shop/product-detail"
              (DetailLocals (form_title Sample.raise_book) "/products" p'))
  /\ (forall other j,
        castObjectId other = Some j -> j <> Sample.book_id ->
        fst (getProduct other w1) = fst (getProduct other Sample.shop)).
Proof.
  apply (edit_shows_on_detail_page Sample.raise_book Sample.book_id
           Sample.book 20 Sample.shop); reflexivity.
Defined.

(** ** Adding a product *)

(** An add request either redirects to the admin product list, having
    appended exactly one product that carries the submitted fields and the
    requesting user as owner, or sends no response and leaves the store as
    it was.  Users and orders are never touched. *)
Theorem add_appends_one_product
    (req_user : User) (body : AddForm) (w : World) :
  let res := fst (postAddProduct req_user body w) in
  let w' := snd (postAddProduct req_user body w) in
  user_docs (db w') = user_docs (db w)
  /\ order_docs (db w') = order_docs (db w)
  /\ ((res = inr NoResponse /\ db w' = db w)
      \/ (exists pr,
            res = inr (Redirect "/admin/products")
            /\ add_price body = Some pr
            /\ product_docs (db w')
               = (product_docs (db w)
                  ++ [mkProduct (new_oid (next_oid w)) (add_title body) pr
                        (add_description body) (add_imageUrl body)
                        (user_id req_user)])%list)).
Proof.
  destruct w as [d fl pay f n].
  unfold postAddProduct, Product_insert; run_monad; simpl.
  destruct (add_price body) as [pr|]; simpl; [|auto].
  destruct f as [|[] f]; simpl; repeat split; auto;
    right; exists pr; auto.
Qed.

Lemma postAddProduct_calm
    (req_user : User) (body : AddForm) (pr : Z) (w : World) :
  calm w = true ->
  add_price body = Some pr ->
  exists w',
    postAddProduct req_user body w = (inr (Redirect "/admin/products"), w')
    /\ calm w' = true
    /\ db w'
       = mkDb (product_docs (db w)
               ++ [mkProduct (new_oid (next_oid w)) (add_title body) pr
                     (add_description body) (add_imageUrl body)
                     (user_id req_user)])
              (user_docs (db w)) (order_docs (db w)).
Proof.
  destruct w as [d fl pay f n]. simpl. intros Hq Hp.
  unfold postAddProduct, Product_insert; run_monad; simpl. rewrite Hp; simpl.
  destruct f as [|b f]; [|apply calm_tail in Hq; destruct Hq as [-> Hq]];
    simpl; eexists; repeat split; auto.
Qed.

Lemma find_product_app (j : ObjectId) (l : list Product) (p : Product) :
  find_product j (l ++ [p])
  = match find_product j l with
    | Some q => Some q
    | None => if String.eqb (prod_id p) j then Some p else None
    end.
Proof.
  unfold find_product. induction l as [|x l IH]; simpl; [reflexivity|].
  destruct (String.eqb (prod_id x) j); [reflexivity | exact IH].
Qed.

(** After an add accepted by a store that answers, with an id no product
    has yet, the new product has a detail page under its id, showing the
    submitted fields, and every product that had a detail page keeps
    it. *)
Theorem added_product_has_detail_page
    (req_user : User) (body : AddForm) (pr : Z) (w : World) :
  calm w = true ->
  add_price body = Some pr ->
  find_product (new_oid (next_oid w)) (product_docs (db w)) = None ->
  let w1 := snd (postAddProduct req_user body w) in
  let new := mkProduct (new_oid (next_oid w)) (add_title body) pr
               (add_description body) (add_imageUrl body)
               (user_id req_user) in
  fst (getProduct (new_oid (next_oid w)) w1)
  = inr (Render "shop/product-detail"
           (DetailLocals (add_title body) "/products" new))
  /\ (forall other j q,
        castObjectId other = Some j ->
        find_product j (product_docs (db w)) = Some q ->
        fst (getProduct other w1) = fst (getProduct other w)).
Proof.
  intros Hq Hp Hfresh w1 new.
  destruct (postAddProduct_calm req_user body pr w Hq Hp)
    as (w' & E & Hq' & Ed).
  unfold w1. rewrite E. cbn [snd]. fold new in Ed. split.
  - rewrite (getProduct_calm _ w' Hq'), new_oid_cast, Ed.
    cbn [product_docs]. rewrite find_product_app, Hfresh.
    cbn [new prod_id]. rewrite String.eqb_refl. reflexivity.
  - intros other j q Hj Hf.
    rewrite (getProduct_calm _ w' Hq'), (getProduct_calm _ w Hq), Hj, Ed.
    cbn [product_docs]. rewrite find_product_app, Hf. reflexivity.
Qed.

Lemma added_product_has_detail_page_witness :
  let body := mkAddForm "Kettle" "/images/kettle.png" (Some 25) "A kettle" in
  let w1 := snd (postAddProduct Sample.bob body Sample.shop) in
  let new := mkProduct (new_oid (next_oid Sample.shop)) (add_title body) 25
               (add_description body) (add_imageUrl body)
               (user_id Sample.bob) in
  fst (getProduct (new_oid (next_oid Sample.shop)) w1)
  = inr (Render "shop/product-detail"
           (DetailLocals (add_title body) "/products" new))
  /\ (forall other j q,
        castObjectId other = Some j ->
        find_product j (product_docs (db Sample.shop)) = Some q ->
        fst (getProduct other w1) = fst (getProduct other Sample.shop)).
Proof.
  apply (added_product_has_detail_page Sample.bob
           (mkAddForm "Kettle" "/images/kettle.png" (Some 25) "A kettle")
           25 Sample.shop); reflexivity.
Defined.

(** ** Deleting a product *)

(** A delete request always ends in the redirect to the admin product
    list, also when the id cannot be cast or the store rejects the call.
    It removes at most the first product with the given id and never
    touches users, orders, files or payment records. *)
Theorem delete_always_redirects (prodId : string) (w : World) :
  let w' := snd (postDeleteProduct prodId w) in
  fst (postDeleteProduct prodId w) = inr (Redirect "/admin/products")
  /\ user_docs (db w') = user_docs (db w)
  /\ order_docs (db w') = order_docs (db w)
  /\ files w' = files w /\ payments w' = payments w
  /\ (db w' = db w
      \/ exists i, castObjectId prodId = Some i
                   /\ product_docs (db w')
                      = remove_product i (product_docs (db w))).
Proof.
  destruct w as [d fl pay f n].
  unfold postDeleteProduct, Product_findByIdAndDelete; run_monad; simpl.
  destruct (castObjectId prodId) as [i|]; simpl; [|repeat split; auto].
  destruct f as [|[] f]; simpl; repeat split; auto; right; exists i; auto.
Qed.

Lemma postDeleteProduct_calm (prodId : string) (i : ObjectId) (w : World) :
  calm w = true ->
  castObjectId prodId = Some i ->
  exists w',
    postDeleteProduct prodId w = (inr (Redirect "/admin/products"), w')
    /\ calm w' = true
    /\ db w' = mkDb (remove_product i (product_docs (db w)))
                    (user_docs (db w)) (order_docs (db w)).
Proof.
  destruct w as [d fl pay f n]. simpl. intros Hq Hc.
  unfold postDeleteProduct, Product_findByIdAndDelete; run_monad; simpl.
  rewrite Hc; simpl.
  destruct f as [|b f]; [|apply calm_tail in Hq; destruct Hq as [-> Hq]];
    simpl; eexists; repeat split; auto.
Qed.

Lemma find_remove_other (i j : ObjectId) (l : list Product) :
  j <> i -> find_product j (remove_product i l) = find_product j l.
Proof.
  unfold find_product. intros Hj.
  induction l as [|x l IH]; simpl; [reflexivity|].
  destruct (String.eqb (prod_id x) i) eqn:E; simpl.
  - apply String.eqb_eq in E.
    assert (A : String.eqb (prod_id x) j = false)
      by (apply String.eqb_neq; congruence).
    rewrite A. reflexivity.
  - destruct (String.eqb (prod_id x) j); [reflexivity | exact IH].
Qed.

Lemma find_absent (i : ObjectId) (l : list Product) :
  ~ In i (map prod_id l) -> find_product i l = None.
Proof.
  unfold find_product. induction l as [|x l IH]; simpl; [reflexivity|].
  intros H. destruct (String.eqb (prod_id x) i) eqn:E.
  - apply String.eqb_eq in E. tauto.
  - apply IH. tauto.
Qed.

Lemma find_remove_same (i : ObjectId) (l : list Product) :
  NoDup (map prod_id l) -> find_product i (remove_product i l) = None.
Proof.
  induction l as [|x l IH]; simpl; [reflexivity|].
  intros H. inversion H as [|? ? Hx Hl]; subst.
  destruct (String.eqb (prod_id x) i) eqn:E.
  - apply String.eqb_eq in E. subst i. apply find_absent, Hx.
  - unfold find_product in *. simpl. rewrite E. apply IH, Hl.
Qed.

(** On a store that answers and whose product ids are distinct, a deleted
    product no longer has a detail page (the request for it is answered
    with status 500), while every other product's detail page and every
    stored order are what they were. *)
Theorem deleted_product_is_gone (prodId : string) (i : ObjectId) (w : World) :
  calm w = true ->
  castObjectId prodId = Some i ->
  NoDup (map prod_id (product_docs (db w))) ->
  let w1 := snd (postDeleteProduct prodId w) in
  fst (getProduct prodId w1)
  = inr (Next (error500 (TypeError "Cannot read property 'title' of null")))
  /\ (forall other j,
        castObjectId other = Some j -> j <> i ->
        fst (getProduct other w1) = fst (getProduct other w))
  /\ order_docs (db w1) = order_docs (db w).
Proof.
  intros Hq Hc Hnd w1.
  destruct (postDeleteProduct_calm prodId i w Hq Hc) as (w' & E & Hq' & Ed).
  unfold w1. rewrite E. cbn [snd]. split; [|split].
  - rewrite (getProduct_calm _ w' Hq'), Hc, Ed. cbn [product_docs].
    rewrite (find_remove_same i _ Hnd). reflexivity.
  - intros other j Hj Hn.
    rewrite (getProduct_calm _ w' Hq'), (getProduct_calm _ w Hq), Hj, Ed.
    cbn [product_docs]. rewrite (find_remove_other i j _ Hn). reflexivity.
  - rewrite Ed. reflexivity.
Qed.

Lemma deleted_product_is_gone_witness :
  let w1 := snd (postDeleteProduct Sample.pen_id Sample.shop) in
  fst (getProduct Sample.pen_id w1)
  = inr (Next (error500 (TypeError "Cannot read property 'title' of null")))
  /\ (forall other j,
        castObjectId other = Some j -> j <> Sample.pen_id ->
        fst (getProduct other w1) = fst (getProduct other Sample.shop))
  /\ order_docs (db w1) = order_docs (db Sample.shop).
Proof.
  apply (deleted_product_is_gone Sample.pen_id Sample.pen_id Sample.shop).
  - reflexivity.
  - reflexivity.
  - simpl. repeat constructor; simpl; intuition discriminate.
Defined.

(** ** A deleted product that sits in a cart *)

Lemma getCart_quiet (u : User) (w : World) :
  quiet 1 w = true ->
  fst (getCart u w)
  = inr (Render "shop/cart"
           (CartLocals "Your Cart" "/cart" (populated u (db w))))
  /\ db (snd (getCart u w)) = db w.
Proof.
  destruct w as [d fl pay f n]. unfold quiet; simpl. intros Hq.
  unfold getCart; run_monad; simpl.
  destruct f as [|[] f]; simpl in *; try discriminate; auto.
Qed.

(** Deleting a product does not take it out of the carts that hold it.
    On a store that answers and whose product ids are distinct, a user
    whose cart holds the deleted product still gets the cart page, with
    that entry populated by [null], but the checkout page and the checkout
    completion answer with an error and create no order. *)
Theorem deleted_product_blocks_checkout
    (prodId origin : string) (i : ObjectId) (u : User) (c : CartItem)
    (w : World) :
  calm w = true ->
  castObjectId prodId = Some i ->
  NoDup (map prod_id (product_docs (db w))) ->
  In c (cart_items u) ->
  productId c = i ->
  let w1 := snd (postDeleteProduct prodId w) in
  user_docs (db w1) = user_docs (db w)
  /\ (exists items,
        fst (getCart u w1)
        = inr (Render "shop/cart" (CartLocals "Your Cart" "/cart" items))
        /\ In (mkPopulated None (quantity c)) items)
  /\ (exists e, fst (getCheckout u origin w1) = inr (Next e)
                /\ httpStatusCode e = Some 500)
  /\ (exists e, fst (getCheckoutSuccess u w1) = inr (Next e))
  /\ db (snd (getCheckoutSuccess u w1)) = db w1.
Proof.
  intros Hq Hc Hnd Hin Hi w1.
  destruct (postDeleteProduct_calm prodId i w Hq Hc) as (w' & E & Hq' & Ed).
  unfold w1. rewrite E. cbn [snd].
  assert (Hn : find_product (productId c) (product_docs (db w')) = None).
  { rewrite Hi, Ed. cbn [product_docs]. apply (find_remove_same i _ Hnd). }
  split; [rewrite Ed; reflexivity|].
  split.
  - destruct (getCart_quiet u w' (calm_quiet 1 w' Hq')) as [-> _].
    eexists. split; [reflexivity|].
    unfold populated. apply in_map_iff. exists c. rewrite Hn. auto.
  - destruct (getCheckout_missing u origin w' c Hin Hn) as (C1 & _ & _).
    destruct (getCheckoutSuccess_missing u w' c Hin Hn) as [S1 S2].
    auto.
Qed.

Lemma deleted_product_blocks_checkout_witness :
  let w1 := snd (postDeleteProduct Sample.book_id Sample.shop) in
  user_docs (db w1) = user_docs (db Sample.shop)
  /\ (exists items,
        fst (getCart Sample.alice w1)
        = inr (Render "shop/cart" (CartLocals "Your Cart" "/cart" items))
        /\ In (mkPopulated None (quantity (mkCartItem Sample.book_id 1)))
              items)
  /\ (exists e, fst (getCheckout Sample.alice "http://shop.test" w1)
                = inr (Next e)
                /\ httpStatusCode e = Some 500)
  /\ (exists e, fst (getCheckoutSuccess Sample.alice w1) = inr (Next e))
  /\ db (snd (getCheckoutSuccess Sample.alice w1)) = db w1.
Proof.
  apply (deleted_product_blocks_checkout Sample.book_id "http://shop.test"
           Sample.book_id Sample.alice (mkCartItem Sample.book_id 1)
           Sample.shop).
  - reflexivity.
  - reflexivity.
  - simpl. repeat constructor; simpl; intuition discriminate.
  - simpl. auto.
  - reflexivity.
Defined.

(** ** Opening the edit form *)

(** The edit form is opened for every non-empty value of the [edit]
    parameter, the strings [false] and [0] included.  Without the
    parameter, or with an empty one, the request is redirected to [/]
    before the store is consulted; with it, on a store that answers, the
    form is rendered for a product that exists and the request is
    redirected to [/] for one that does not. *)
Theorem edit_form_opening
    (edit : option QueryVal) (prodId : string) (isLoggedIn : bool)
    (i : ObjectId) (w : World) :
  castObjectId prodId = Some i ->
  quiet 1 w = true ->
  (truthy edit = false ->
   getEditProduct edit prodId isLoggedIn w = (inr (AdminRedirect "/"), w))
  /\ (truthy edit = true ->
      fst (getEditProduct edit prodId isLoggedIn w)
      = inr match find_product i (product_docs (db w)) with
            | Some p =>
                AdminRender "admin/edit-product"
                  (mkEditLocals "Edit Product" "/admin/edit-product" edit p
                                isLoggedIn)
            | None => AdminRedirect "/"
            end)
  /\ db (snd (getEditProduct edit prodId isLoggedIn w)) = db w
  /\ (forall s, s <> "" -> truthy (Some (QStr s)) = true).
Proof.
  intros Hc Hq. destruct w as [d fl pay f n]. unfold quiet in Hq.
  simpl in *. unfold getEditProduct; run_monad.
  split; [intros ->; reflexivity|].
  split; [intros ->; simpl; rewrite Hc; simpl;
          destruct f as [|[] f]; simpl in *; try discriminate;
          destruct (find_product i (product_docs d)); reflexivity|].
  split.
  - destruct (truthy edit); simpl; [|reflexivity]. rewrite Hc; simpl.
    destruct f as [|[] f]; simpl in *; try discriminate;
      destruct (find_product i (product_docs d)); reflexivity.
  - intros s Hs. simpl. apply String.eqb_neq in Hs. rewrite Hs. reflexivity.
Qed.

Lemma edit_form_opening_witness :
  (truthy (Some (QStr "false")) = false ->
   getEditProduct (Some (QStr "false")) Sample.book_id true Sample.shop
   = (inr (AdminRedirect "/"), Sample.shop))
  /\ (truthy (Some (QStr "false")) = true ->
      fst (getEditProduct (Some (QStr "false")) Sample.book_id true
             Sample.shop)
      = inr match find_product Sample.book_id
                    (product_docs (db Sample.shop)) with
            | Some p =>
                AdminRender "admin/edit-product"
                  (mkEditLocals "Edit Product" "/admin/edit-product"
                     (Some (QStr "false")) p true)
            | None => AdminRedirect "/"
            end)
  /\ db (snd (getEditProduct (Some (QStr "false")) Sample.book_id true
                Sample.shop)) = db Sample.shop
  /\ (forall s, s <> "" -> truthy (Some (QStr s)) = true).
Proof.
  apply (edit_form_opening (Some (QStr "false")) Sample.book_id true
           Sample.book_id Sample.shop); reflexivity.
Defined.

Example edit_false_opens_the_form :
  fst (getEditProduct (Some (QStr "false")) Sample.book_id true Sample.shop)
  = inr (AdminRender "admin/edit-product"
           (mkEditLocals "Edit Product" "/admin/edit-product"
              (Some (QStr "false")) Sample.book true)).
Proof. vm_compute. reflexivity. Qed.

(** ** The signup check that an email is not taken *)

(** When the store answers, the validator rejects an email exactly when
    some stored user has it, with the message [Email already taken].  When
    the lookup is rejected the failure is only logged and the validator
    passes, also for an email that is taken.  It never writes. *)
Theorem signup_email_check (value : string) (w : World) :
  let taken :=
    existsb (fun u => String.eqb (email u) value) (user_docs (db w)) in
  (quiet 1 w = true ->
   fst (Signup.email_custom value w)
   = inr (if taken then Signup.Rejects "Email already taken"
          else Signup.Passes))
  /\ (quiet 1 w = false ->
      fst (Signup.email_custom value w) = inr Signup.Passes)
  /\ db (snd (Signup.email_custom value w)) = db w.
Proof.
  destruct w as [d fl pay f n]. unfold quiet. simpl.
  assert (F : forall l : list User,
             match find (fun u => String.eqb (email u) value) l with
             | Some _ => Signup.Rejects "Email already taken"
             | None => Signup.Passes
             end
             = if existsb (fun u => String.eqb (email u) value) l
               then Signup.Rejects "Email already taken"
               else Signup.Passes).
  { induction l as [|x l IH]; simpl; [reflexivity|].
    destruct (String.eqb (email x) value); [reflexivity | exact IH]. }
  unfold Signup.email_custom, Signup.User_findOne_email; run_monad; simpl.
  destruct f as [|[] f]; simpl; repeat split; intros; try discriminate;
    try reflexivity;
    try (rewrite <- F; destruct (find _ (user_docs d)); reflexivity);
    destruct (find _ (user_docs d)); reflexivity.
Qed.

Lemma signup_email_check_witness :
  existsb (fun u => String.eqb (email u) "alice@example.com")
          (user_docs (db (set_faults [true] Sample.shop))) = true
  /\ fst (Signup.email_custom "alice@example.com"
            (set_faults [true] Sample.shop))
     = inr Signup.Passes.
Proof.
  split; [reflexivity|].
  apply (proj1 (proj2 (signup_email_check "alice@example.com"
                         (set_faults [true] Sample.shop)))).
  reflexivity.
Defined.

(** ** The Sequelize cart: what a request leaves alone, and the cart page *)

Module SequelizeCartFacts.
Import Sequelize.

Lemma getProducts_ids (prodId : N) (s : State) (rows : list CartItemRow)
    (p : ProductRow) (r : CartItemRow) :
  In (p, r) (getProducts prodId s rows) -> id p = prodId.
Proof.
  unfold getProducts. rewrite in_flat_map. intros (x & _ & H).
  destruct (productId x =? prodId)%N eqn:E; [|contradiction].
  apply N.eqb_eq in E.
  destruct (findByPk (productId x) s) as [q|] eqn:Eq; [|contradiction].
  destruct H as [H|[]]. injection H as <- _.
  rewrite <- E. apply (SequelizeFacts.findByPk_id _ _ _ Eq).
Qed.

(** What [addProduct] leaves alone. *)
Lemma addProduct_frame (product : option ProductRow) (q : Z)
    (rows : list CartItemRow) (prodId other : N) :
  (forall p, product = Some p -> id p = prodId) ->
  other <> prodId ->
  quantity_of other (addProduct product q rows) = quantity_of other rows
  /\ occurrences other (addProduct product q rows) = occurrences other rows.
Proof.
  intros Hp Ho. destruct product as [p|]; [|auto].
  specialize (Hp p eq_refl). unfold addProduct. rewrite Hp.
  assert (A : (prodId =? other)%N = false) by (apply N.eqb_neq; congruence).
  unfold quantity_of, occurrences.
  destruct (existsb (fun r => (productId r =? prodId)%N) rows).
  - induction rows as [|x rows [IH1 IH2]]; simpl; [auto|].
    destruct (productId x =? prodId)%N eqn:E; simpl.
    + apply N.eqb_eq in E. rewrite E, A. auto.
    + destruct (productId x =? other)%N; simpl; auto.
  - rewrite filter_app, length_app. simpl. rewrite A. simpl.
    split; [|lia].
    induction rows as [|x rows IH]; simpl; [rewrite A; reflexivity|].
    destruct (productId x =? other)%N; [reflexivity | exact IH].
Qed.

Lemma addProduct_length (product : option ProductRow) (q : Z)
    (rows : list CartItemRow) :
  (List.length rows <= List.length (addProduct product q rows))%nat.
Proof.
  destruct product as [p|]; simpl; [|lia].
  destruct (existsb _ rows).
  - rewrite length_map. lia.
  - rewrite length_app. simpl. lia.
Qed.

Ltac end_absent :=
  right; eexists _, (findByPk _ _), 1; repeat split; auto;
  let p := fresh "p" in let Hp := fresh "Hp" in
  intros p Hp; apply (SequelizeFacts.findByPk_id _ _ _ Hp).

Ltac end_present Eg :=
  right; eexists _, (Some _), _; repeat split; auto;
  let p0 := fresh "p" in
  intros p0 [= <-]; eapply getProducts_ids; rewrite Eg; left; reflexivity.

(** The two ways a request ends. *)
Lemma postCart_cases (prodId : N) (s : State) :
  let res := fst (postCart prodId s) in
  let s' := snd (postCart prodId s) in
  products s' = products s
  /\ ((res = NoResponse /\ cart s' = cart s)
      \/ (exists rows product q,
            res = Redirect "/cart"
            /\ cart s = Some rows
            /\ cart s' = Some (addProduct product q rows)
            /\ (forall p, product = Some p -> id p = prodId))).
Proof.
  destruct s as [ps c f]. unfold postCart, await; simpl.
  destruct f as [|[] f1]; simpl; auto;
    (destruct c as [rows|]; simpl; [|auto]);
    try (destruct f1 as [|[] f2]; simpl; auto);
    (match goal with
     | |- context [getProducts ?a ?b ?c] =>
         destruct (getProducts a b c) as [|[p r] l] eqn:Eg
     end; simpl);
    try (destruct f2 as [|[] f3]; simpl; auto);
    try (destruct f3 as [|[] f4]; simpl; auto);
    (split; [reflexivity|]);
    first [ end_present Eg | end_absent ].
Qed.

End SequelizeCartFacts.

(** Whatever the database does, an add-to-cart request of the Sequelize
    revision leaves the catalog alone, never removes a cart row and never
    changes the quantity or the rows of any other product; when it fails
    it sends no response and leaves the cart as it was; a user without a
    cart stays without one. *)
Theorem sequelize_postCart_frame (prodId : N) (s : Sequelize.State) :
  let res := fst (Sequelize.postCart prodId s) in
  let s' := snd (Sequelize.postCart prodId s) in
  Sequelize.products s' = Sequelize.products s
  /\ (res = Redirect "/cart" \/ res = NoResponse)
  /\ (res = NoResponse -> Sequelize.cart s' = Sequelize.cart s)
  /\ (Sequelize.cart s = None -> Sequelize.cart s' = None)
  /\ (forall rows rows',
        Sequelize.cart s = Some rows ->
        Sequelize.cart s' = Some rows' ->
        (List.length rows <= List.length rows')%nat
        /\ forall other,
             other <> prodId ->
             Sequelize.quantity_of other rows'
             = Sequelize.quantity_of other rows
             /\ Sequelize.occurrences other rows'
                = Sequelize.occurrences other rows).
Proof.
  intros res s'.
  destruct (SequelizeCartFacts.postCart_cases prodId s)
    as (Hps & [[R C] | (rows0 & product & q & R & C & C' & Hid)]);
    fold res s' in Hps, R, C |- *; try fold s' in C'.
  - split; [exact Hps|]. split; [auto|]. split; [auto|].
    split; [intros H; rewrite C; exact H|].
    intros rows rows' H H'. rewrite C, H in H'. injection H' as <-.
    split; [lia | auto].
  - split; [exact Hps|]. split; [auto|].
    split; [intros H; rewrite R in H; discriminate|].
    split; [intros H; rewrite C in H; discriminate|].
    intros rows rows' H H'. rewrite C in H. injection H as <-.
    rewrite C' in H'. injection H' as <-.
    split; [apply SequelizeCartFacts.addProduct_length|].
    intros other Ho.
    apply (SequelizeCartFacts.addProduct_frame product q rows0 prodId other
             Hid Ho).
Qed.

Lemma sequelize_postCart_frame_witness :
  let s := Sequelize.mkState
             [Sequelize.mkProductRow 1 "Book" 10;
              Sequelize.mkProductRow 2 "Pen" 5]
             (Some [Sequelize.mkCartItemRow 2 4]) [] in
  (List.length [Sequelize.mkCartItemRow 2 4]
   <= List.length [Sequelize.mkCartItemRow 2 4; Sequelize.mkCartItemRow 1 1])%nat
  /\ forall other,
       other <> 1%N ->
       Sequelize.quantity_of other
         [Sequelize.mkCartItemRow 2 4; Sequelize.mkCartItemRow 1 1]
       = Sequelize.quantity_of other [Sequelize.mkCartItemRow 2 4]
       /\ Sequelize.occurrences other
            [Sequelize.mkCartItemRow 2 4; Sequelize.mkCartItemRow 1 1]
          = Sequelize.occurrences other [Sequelize.mkCartItemRow 2 4].
Proof.
  intros s.
  apply (proj2 (proj2 (proj2 (proj2 (sequelize_postCart_frame 1 s))))
           [Sequelize.mkCartItemRow 2 4]
           [Sequelize.mkCartItemRow 2 4; Sequelize.mkCartItemRow 1 1]);
    reflexivity.
Defined.

(** After [n + 1] add-to-cart requests for one product, from an empty
    cart, with the product in the catalog and a database that answers, the
    cart page of the Sequelize revision shows that product once, with
    quantity [n + 1]; the page of the empty cart shows nothing. *)
Theorem sequelize_cart_page_after_adds
    (n : nat) (s : Sequelize.State) (prodId : N) (p : Sequelize.ProductRow) :
  Sequelize.cart s = Some [] ->
  Sequelize.findByPk prodId s = Some p ->
  Sequelize.calm s = true ->
  fst (SequelizeShop.getCart (Sequelize.postCart_times (S n) prodId s))
  = SequelizeShop.Rendered
      (SequelizeShop.CartView "shop/cart" "Your Cart" "/cart"
         [(p, Sequelize.mkCartItemRow prodId (Z.of_nat (S n)))])
  /\ fst (SequelizeShop.getCart s)
     = SequelizeShop.Rendered
         (SequelizeShop.CartView "shop/cart" "Your Cart" "/cart" []).
Proof.
  intros Hc Hp Hq.
  assert (G : forall s1 rows,
             Sequelize.products s1 = Sequelize.products s ->
             Sequelize.calm s1 = true ->
             Sequelize.cart s1 = Some rows ->
             fst (SequelizeShop.getCart s1)
             = SequelizeShop.Rendered
                 (SequelizeShop.CartView "shop/cart" "Your Cart" "/cart"
                    (SequelizeShop.cart_products s rows))).
  { intros [ps c f] rows Hps Hq1 Hc1. simpl in *. subst ps c.
    unfold SequelizeShop.getCart, Sequelize.await, Sequelize.calm in *.
    simpl in *.
    destruct f as [|[] [|[] f]]; simpl in *; try discriminate;
      reflexivity. }
  destruct (SequelizeFacts.postCart_times_rows (S n) prodId s p Hc Hp Hq)
    as (Hps & Hq' & Hc').
  split.
  - rewrite (G _ _ Hps Hq' Hc').
    unfold Sequelize.rows_after, SequelizeShop.cart_products.
    cbn [flat_map Sequelize.productId]. rewrite Hp. reflexivity.
  - rewrite (G s [] eq_refl Hq Hc). reflexivity.
Qed.

Lemma sequelize_cart_page_after_adds_witness :
  fst (SequelizeShop.getCart (Sequelize.postCart_times (S 2) 1 Sample.catalog))
  = SequelizeShop.Rendered
      (SequelizeShop.CartView "shop/cart" "Your Cart" "/cart"
         [(Sequelize.mkProductRow 1 "Book" 10,
           Sequelize.mkCartItemRow 1 (Z.of_nat (S 2)))])
  /\ fst (SequelizeShop.getCart Sample.catalog)
     = SequelizeShop.Rendered
         (SequelizeShop.CartView "shop/cart" "Your Cart" "/cart" []).
Proof.
  apply (sequelize_cart_page_after_adds 2 Sample.catalog 1%N
           (Sequelize.mkProductRow 1 "Book" 10)); reflexivity.
Defined.

(** ** Requests that fail before they write *)

(** An add-to-cart request of the Mongoose revision whose product id
    cannot be cast, or whose product lookup is rejected by the store, is
    answered through [next] with status 500 and leaves the store, and so
    the cart, as it was. *)
Theorem postCart_lookup_failure
    (req_user : User) (prodId : string) (w : World) :
  castObjectId prodId = None \/ quiet 1 w = false ->
  exists e,
    fst (postCart req_user prodId w) = inr (Next e)
    /\ httpStatusCode e = Some 500
    /\ db (snd (postCart req_user prodId w)) = db w.
Proof.
  destruct w as [d fl pay f n]. unfold quiet; simpl. intros H.
  unfold postCart; run_monad; simpl.
  destruct (castObjectId prodId) as [i|]; simpl.
  - destruct H as [H | H]; [discriminate|].
    destruct f as [|[] f]; simpl in *; try discriminate.
    eexists. repeat split.
  - eexists. repeat split.
Qed.

Lemma postCart_lookup_failure_witness :
  exists e,
    fst (postCart Sample.alice "not-an-id" Sample.shop) = inr (Next e)
    /\ httpStatusCode e = Some 500
    /\ db (snd (postCart Sample.alice "not-an-id" Sample.shop))
       = db Sample.shop.
Proof.
  apply (postCart_lookup_failure Sample.alice "not-an-id" Sample.shop).
  left. reflexivity.
Defined.

(** The listing handlers only read: whatever the store does and whatever
    the page number, the product list and the index leave the store, the
    files and the payment records as they were, and answer either with the
    rendered listing or through [next] with status 500. *)
Theorem listing_is_read_only (p : Z) (w : World) :
  let answers (r : Exn + Response) :=
    (exists view title path l,
       r = inr (Render view (ListingLocals title path l)))
    \/ (exists e, r = inr (Next e) /\ httpStatusCode e = Some 500) in
  db (snd (getProducts_page p w)) = db w
  /\ files (snd (getProducts_page p w)) = files w
  /\ payments (snd (getProducts_page p w)) = payments w
  /\ answers (fst (getProducts_page p w))
  /\ db (snd (getIndex_page p w)) = db w
  /\ files (snd (getIndex_page p w)) = files w
  /\ payments (snd (getIndex_page p w)) = payments w
  /\ answers (fst (getIndex_page p w)).
Proof.
  destruct w as [d fl pay f n].
  unfold getProducts_page, getIndex_page; run_monad; simpl.
  destruct ((p - 1) * ITEMS_PER_PAGE <? 0);
    destruct f as [|[] [|[] f]]; simpl; repeat split;
    solve [ left; do 4 eexists; reflexivity
          | right; eexists; split; reflexivity ].
Qed.

(** ** Rendering an invoice again *)

Lemma filter_twice {A} (g : A -> bool) (l : list A) :
  filter g (filter g l) = filter g l.
Proof.
  induction l as [|x l IH]; simpl; [reflexivity|].
  destruct (g x) eqn:E; simpl; [rewrite E, IH; reflexivity | exact IH].
Qed.

(** The invoice is rendered anew at each request: a second request of the
    owner, on a store that answers, gets the same document and leaves the
    invoice files as the first request left them. *)
Theorem invoice_rendered_again
    (req_user : User) (orderId : string) (i : ObjectId) (o : Order)
    (w : World) :
  castObjectId orderId = Some i ->
  find_order i (order_docs (db w)) = Some o ->
  order_userId o = user_id req_user ->
  quiet 2 w = true ->
  let w1 := snd (getInvoice req_user orderId w) in
  fst (getInvoice req_user orderId w1) = fst (getInvoice req_user orderId w)
  /\ files (snd (getInvoice req_user orderId w1)) = files w1.
Proof.
  intros Hc Hf Ho Hq w1.
  assert (Q : quiet 1 w = true /\ quiet 1 w1 = true).
  { unfold w1. apply String.eqb_eq in Ho.
    destruct w as [d fl pay f n]. unfold quiet in *. simpl in *.
    unfold getInvoice; run_monad; simpl. rewrite Hc; simpl.
    destruct f as [|[] [|[] f]]; simpl in *; try discriminate;
      rewrite Hf, Ho; simpl; auto. }
  destruct Q as [Q0 Q1].
  destruct (getInvoice_owner_run req_user orderId i o w Hc Hf Ho Q0)
    as (v & E & Ef & Ed).
  assert (Hf1 : find_order i (order_docs (db w1)) = Some o).
  { unfold w1. rewrite E. cbn [snd]. unfold write_file; simpl.
    rewrite Ed. exact Hf. }
  destruct (getInvoice_owner_run req_user orderId i o w1 Hc Hf1 Ho Q1)
    as (v1 & E1 & Ef1 & _).
  rewrite E1, E. cbn [fst snd]. split; [reflexivity|].
  unfold w1 in Ef1 |- *. rewrite E in Ef1 |- *. cbn [snd] in Ef1 |- *.
  unfold write_file in *; cbn [snd files set_files] in *.
  rewrite Ef1. cbn [filter fst]. rewrite String.eqb_refl. cbn [negb].
  f_equal. apply filter_twice.
Qed.

Lemma invoice_rendered_again_witness :
  let u := mkUser Sample.alice_id "alice@example.com" [] in
  let w1 := snd (getInvoice u Sample.first_order_id Sample.shop_after_order) in
  fst (getInvoice u Sample.first_order_id w1)
  = fst (getInvoice u Sample.first_order_id Sample.shop_after_order)
  /\ files (snd (getInvoice u Sample.first_order_id w1)) = files w1.
Proof.
  apply (invoice_rendered_again
           (mkUser Sample.alice_id "alice@example.com" [])
           Sample.first_order_id Sample.first_order_id Sample.alice_order
           Sample.shop_after_order); reflexivity.
Defined.

(** ** Listing and detail pages of the Sequelize revision *)

Lemma sequelize_find_listed (p : Sequelize.ProductRow)
    (l : list Sequelize.ProductRow) :
  NoDup (map Sequelize.id l) -> In p l ->
  find (fun q => (Sequelize.id q =? Sequelize.id p)%N) l = Some p.
Proof.
  induction l as [|x l IH]; simpl; [contradiction|].
  intros Hnd Hin. inversion Hnd as [|? ? Hx Hl]; subst.
  destruct (Sequelize.id x =? Sequelize.id p)%N eqn:E.
  - apply N.eqb_eq in E. destruct Hin as [-> | Hin]; [reflexivity|].
    exfalso. apply Hx. rewrite E. apply in_map, Hin.
  - destruct Hin as [-> | Hin]; [rewrite N.eqb_refl in E; discriminate|].
    apply IH; assumption.
Qed.

(** In the Sequelize revision, on a database that answers and whose
    product ids are distinct, the product list and the index both show the
    whole catalog on one page, every product shown has a detail page that
    renders it under its own title, and a detail request for an id that no
    product has gets no response at all. *)
Theorem sequelize_listed_products_have_detail_pages (s : Sequelize.State) :
  Sequelize.calm s = true ->
  NoDup (map Sequelize.id (Sequelize.products s)) ->
  fst (SequelizeShop.getProducts s)
  = SequelizeShop.Rendered
      (SequelizeShop.ProductsView "shop/product-list" "All Products"
         "/products" (Sequelize.products s))
  /\ fst (SequelizeShop.getIndex s)
     = SequelizeShop.Rendered
         (SequelizeShop.ProductsView "shop/index" "Shop" "/"
            (Sequelize.products s))
  /\ (forall p,
        In p (Sequelize.products s) ->
        fst (SequelizeShop.getProduct (Sequelize.id p) s)
        = SequelizeShop.Rendered
            (SequelizeShop.DetailView "shop/product-detail"
               (Sequelize.row_title p) "/products" p))
  /\ (forall prodId,
        Sequelize.findByPk prodId s = None ->
        fst (SequelizeShop.getProduct prodId s) = SequelizeShop.Silent).
Proof.
  destruct s as [ps c f]. unfold Sequelize.calm; simpl. intros Hq Hnd.
  unfold SequelizeShop.getProducts, SequelizeShop.getIndex,
    SequelizeShop.getProduct, Sequelize.await, Sequelize.findByPk; simpl.
  destruct f as [|[] f]; simpl in *; try discriminate;
    (split; [reflexivity|]); (split; [reflexivity|]); split;
    try (intros p Hp; rewrite (sequelize_find_listed p ps Hnd Hp);
         reflexivity);
    intros prodId ->; reflexivity.
Qed.

Lemma sequelize_listed_products_have_detail_pages_witness :
  fst (SequelizeShop.getProducts Sample.catalog)
  = SequelizeShop.Rendered
      (SequelizeShop.ProductsView "shop/product-list" "All Products"
         "/products" (Sequelize.products Sample.catalog))
  /\ fst (SequelizeShop.getIndex Sample.catalog)
     = SequelizeShop.Rendered
         (SequelizeShop.ProductsView "shop/index" "Shop" "/"
            (Sequelize.products Sample.catalog))
  /\ (forall p,
        In p (Sequelize.products Sample.catalog) ->
        fst (SequelizeShop.getProduct (Sequelize.id p) Sample.catalog)
        = SequelizeShop.Rendered
            (SequelizeShop.DetailView "shop/product-detail"
               (Sequelize.row_title p) "/products" p))
  /\ (forall prodId,
        Sequelize.findByPk prodId Sample.catalog = None ->
        fst (SequelizeShop.getProduct prodId Sample.catalog)
        = SequelizeShop.Silent).
Proof.
  apply (sequelize_listed_products_have_detail_pages Sample.catalog).
  - reflexivity.
  - simpl. repeat constructor; simpl; intuition discriminate.
Defined.
